(** * Media downloader and converter service: request-to-invocation layer

    A shallow embedding of [main.py]: the process runner [run_cmd], the
    fetch operation [yt_dlp_download] (workspace, argument builder, artifact
    scan, history record) and the convert operation [ffmpeg_convert]
    (existence check, output path, argument builder, conversions record).

    Python strings are modelled by [string], one [ascii] per character;
    lists of strings by [list string]; [Optional[T]] by [option T].  The
    operating system, the two external tools and the document store are
    a [World] of oracles, and every observable action of the program is
    appended to a trace of [event]s. *)

From Stdlib Require Import String Ascii List ZArith Lia Bool.
Import ListNotations.

Local Open Scope string_scope.
Local Open Scope list_scope.

Notation "a +++ b" := (String.append a b) (at level 60, right associativity).

(** ** Python string and truth-value primitives *)

Module Py.

  (** [bool(s)] for a string: the empty string is false. *)
Definition truthy_str (s : string) : bool :=
    match s with
    | EmptyString => false
    | String _ _ => true
    end.

  (** [bool(o)] for an [Optional[str]]: [None] and the empty string are false. *)
Definition truthy_opt (o : option string) : bool :=
    match o with
    | None => false
    | Some s => truthy_str s
    end.

  (** [o or default] on an optional list. *)
Definition list_or (o : option (list string)) (default : list string)
    : list string :=
    match o with
    | Some (x :: l) => x :: l
    | _ => default
    end.

  (** [s.startswith(p)]. *)
Definition startswith (s p : string) : bool := String.prefix p s.

  (** [s.endswith(suf)]: [suf] is [s] itself or a suffix of its tail. *)
Fixpoint endswith (s suf : string) : bool :=
    String.eqb s suf ||
    match s with
    | EmptyString => false
    | String _ s' => endswith s' suf
    end.

  (** [s.endswith(tuple)]. *)
Definition endswith_any (s : string) (sufs : list string) : bool :=
    existsb (endswith s) sufs.

  (** [sep.join(l)]. *)
Definition join (sep : string) (l : list string) : string :=
    String.concat sep l.

  (** [x in (a, b, ...)] for strings. *)
Definition in_tuple (x : string) (t : list string) : bool :=
    existsb (String.eqb x) t.

  (** [s.lower()] on the characters A..Z. *)
Definition lower_ascii (c : ascii) : ascii :=
    let n := nat_of_ascii c in
    if (65 <=? n)%nat && (n <=? 90)%nat then ascii_of_nat (n + 32) else c.

Fixpoint lower (s : string) : string :=
    match s with
    | EmptyString => EmptyString
    | String c s' => String (lower_ascii c) (lower s')
    end.

  (** First [n] characters and the rest. *)
Fixpoint take (n : nat) (s : string) : string :=
    match n, s with
    | S n', String c s' => String c (take n' s')
    | _, _ => EmptyString
    end.

Fixpoint drop (n : nat) (s : string) : string :=
    match n, s with
    | S n', String _ s' => drop n' s'
    | _, _ => s
    end.

Definition len (s : string) : Z := Z.of_nat (String.length s).

  (** Index normalisation of a slice bound: negative bounds count from the
      end, and the result is clamped to [0 .. len s]. *)
Definition clamp (i : Z) (s : string) : Z :=
    if (i <? 0)%Z then Z.max (len s + i) 0 else Z.min i (len s).

  (** [s[i:]]. *)
Definition slice_from (i : Z) (s : string) : string :=
    drop (Z.to_nat (clamp i s)) s.

  (** [s[:i]]. *)
Definition slice_to (i : Z) (s : string) : string :=
    take (Z.to_nat (clamp i s)) s.

  (** [s.rfind(c)] for a one-character needle: the highest index holding
      [c], or -1. *)
Fixpoint rfind (c : ascii) (s : string) : Z :=
    match s with
    | EmptyString => (-1)%Z
    | String a s' =>
        let r := rfind c s' in
        if (0 <=? r)%Z then (r + 1)%Z
        else if Ascii.eqb a c then 0%Z else (-1)%Z
    end.

  (** [s[i:i+1]] as an optional character. *)
Definition char_at (i : Z) (s : string) : option ascii :=
    if (i <? 0)%Z then None else String.get (Z.to_nat i) s.

End Py.

(** ** [os.path] (POSIX flavour) *)

Module OsPath.

  (** [os.path.join(a, b)]: an absolute [b] replaces [a]; otherwise the two
      are glued with one separator unless [a] is empty or already ends
      with one. *)
Definition join (a b : string) : string :=
    if Py.startswith b "/" then b
    else if negb (Py.truthy_str a) || Py.endswith a "/" then a +++ b
    else a +++ "/" +++ b.

  (** The scan of [splitext] over the leading characters of the file name:
      starting at [i], looks at [n] characters and reports whether one of
      them is not a dot. *)
Fixpoint has_non_dot (p : string) (i : Z) (n : nat) : bool :=
    match n with
    | O => false
    | S n' =>
        match Py.char_at i p with
        | Some c => if Ascii.eqb c "."%char then has_non_dot p (i + 1) n' else true
        | None => true
        end
    end.

  (** [os.path.splitext(p)]: the extension starts at the last dot of the
      last path component, unless that component consists of leading dots
      only up to there. *)
Definition splitext (p : string) : string * string :=
    let sepIndex := Py.rfind "/"%char p in
    let dotIndex := Py.rfind "."%char p in
    if (sepIndex <? dotIndex)%Z then
      let filenameIndex := (sepIndex + 1)%Z in
      if has_non_dot p filenameIndex (Z.to_nat (dotIndex - filenameIndex))
      then (Py.slice_to dotIndex p, Py.slice_from dotIndex p)
      else (p, EmptyString)
    else (p, EmptyString).

End OsPath.

(** ** Request models *)

(** [Literal["mp3","mp4","wav","mkv","webm","m4a","opus"]]. *)
Inductive media_format : Type :=
  | mp3 | mp4 | wav | mkv | webm | m4a | opus.

Definition format_str (f : media_format) : string :=
  match f with
  | mp3 => "mp3" | mp4 => "mp4" | wav => "wav" | mkv => "mkv"
  | webm => "webm" | m4a => "m4a" | opus => "opus"
  end.

Record DownloadRequest : Type := {
  url : string;
  format : media_format;
  quality : option string;
  subtitles : bool;
  subtitle_langs : option (list string);
  embed_subs : bool;
  audio_only : bool;
  filename_template : option string;
  ffmpeg_args : option (list string)
}.

Record ConvertRequest : Type := {
  input_path : string;
  output_format : media_format;
  start : option string;
  end_ : option string;
  extra_args : option (list string)
}.

(** The process environment read by the service. *)
Record Environ : Type := {
  env_DOWNLOAD_ROOT : option string;
  env_FFMPEG_PATH : option string;
  env_ENABLE_SPONSORBLOCK : option string
}.

(** [os.environ.get(name, default)]. *)
Definition environ_get (v : option string) (default : string) : string :=
  match v with
  | Some s => s
  | None => default
  end.

(** [DOWNLOAD_ROOT = os.environ.get("DOWNLOAD_ROOT", "/tmp/downloads")]. *)
Definition DOWNLOAD_ROOT (env : Environ) : string :=
  environ_get (env_DOWNLOAD_ROOT env) "/tmp/downloads".

(** ** The world outside the program *)

(** What [subprocess.run] observes: the child exits with a code and its
    combined stdout and stderr, or cannot be started at all. *)
Inductive completed : Type :=
  | Exited (returncode : Z) (stdout : string)
  | NotStarted.

(** A directory as [os.walk] sees it: its file names and its
    sub-directories, in listing order; an unreadable directory yields
    nothing (the default [onerror=None]). *)
#[warnings="-register-all"]
Inductive tree : Type :=
  | Unreadable
  | Dir (files : list string) (dirs : list (string * tree)).

(** Field values of the records sent to the document store. *)
Inductive value : Type :=
  | VStr (s : string)
  | VBool (b : bool)
  | VList (l : list string)
  | VNone.

Definition document : Type := list (string * value).

Inductive exn : Type :=
  | HTTPException (status_code : Z) (detail : string)
  | OSError.

Inductive event : Type :=
  | EvMakedirs (path : string)
  | EvSpawn (cmd : list string)
  | EvCreateDocument (collection : string) (doc : document).

Record World : Type := {
  environ : Environ;
  (** [str(uuid.uuid4())] as drawn for this request *)
  uuid4 : string;
  (** [os.makedirs(path, exist_ok=True)] succeeds *)
  makedirs_ok : string -> bool;
  (** [os.path.exists] *)
  path_exists : string -> bool;
  (** the behaviour of the child process started on an argument vector *)
  subprocess_run : list string -> completed;
  (** the directory tree found at a path once the fetch tool has run *)
  listing : string -> tree;
  (** [create_document] returns normally on a collection and a record *)
  create_document_ok : string -> document -> bool;
  (** [repr] of the argument vector and the wording of an exit status,
      as [str(CalledProcessError)] prints them *)
  repr_cmd : list string -> string;
  exit_phrase : Z -> string
}.

(** ** Computations: a trace of events and a result or an exception *)

Inductive outcome (A : Type) : Type :=
  | Returns (a : A)
  | Raises (e : exn).
Arguments Returns {A} a.
Arguments Raises {A} e.

Definition M (A : Type) : Type := list event -> outcome A * list event.

Definition ret {A} (a : A) : M A := fun t => (Returns a, t).

Definition bind {A B} (m : M A) (k : A -> M B) : M B :=
  fun t =>
    match m t with
    | (Returns a, t') => k a t'
    | (Raises e, t') => (Raises e, t')
    end.

Definition raise {A} (e : exn) : M A := fun t => (Raises e, t).

Definition emit (ev : event) : M unit := fun t => (Returns tt, t ++ [ev]).

(** [try: m  except Exception: pass]. *)
Definition try_except_pass (m : M unit) : M unit :=
  fun t =>
    match m t with
    | (Returns _, t') => (Returns tt, t')
    | (Raises _, t') => (Returns tt, t')
    end.

Notation "x <- m ;; k" := (bind m (fun x => k))
  (at level 61, m at next level, right associativity).
Notation "m ;;; k" := (bind m (fun _ => k))
  (at level 61, right associativity).

(** Running a computation from the empty trace. *)
Definition run {A} (m : M A) : outcome A * list event := m [].

(** ** Process runner *)

(** [str(e)] of a [CalledProcessError]. *)
Definition CalledProcessError_str (w : World) (cmd : list string) (rc : Z)
  : string :=
  "Command '" +++ repr_cmd w cmd +++ "' " +++ exit_phrase w rc.

Definition run_cmd (w : World) (cmd : list string) : M string :=
  emit (EvSpawn cmd) ;;;
  match subprocess_run w cmd with
  | NotStarted => raise OSError
  | Exited rc out =>
      if (rc =? 0)%Z then ret out
      else
        raise (HTTPException 500
                 (if Py.truthy_str out then Py.slice_from (-2000) out
                  else CalledProcessError_str w cmd rc))
  end.

(** [create_document(collection, doc)]. *)
Definition create_document (w : World) (collection : string) (doc : document)
  : M unit :=
  emit (EvCreateDocument collection doc) ;;;
  if create_document_ok w collection doc then ret tt else raise OSError.

(** ** Fetch: argument builder *)

(** Lines 96-132 of [yt_dlp_download]: the argument vector for the fetch
    tool, given the environment and the session directory. *)
Definition fetch_args (env : Environ) (out_dir : string) (req : DownloadRequest)
  : list string :=
  let outtmpl :=
    match filename_template req with
    | Some t =>
        if Py.truthy_str t then OsPath.join out_dir t
        else OsPath.join out_dir "%(title)s-%(id)s.%(ext)s"
    | None => OsPath.join out_dir "%(title)s-%(id)s.%(ext)s"
    end in
  let args :=
    [ "yt-dlp"; url req; "-o"; outtmpl;
      "--merge-output-format"; format_str (format req) ] in
  let args :=
    if audio_only req then
      args ++ ["-x"; "--audio-format"; format_str (format req)]
    else
      match quality req with
      | Some q =>
          if Py.truthy_str q && negb (Py.in_tuple q ["best"; "worst"])
          then args ++ ["-f"; q]
          else args ++ ["-f"; "bestvideo+bestaudio/best"]
      | None => args ++ ["-f"; "bestvideo+bestaudio/best"]
      end in
  let args :=
    if subtitles req then
      let langs := Py.join "," (Py.list_or (subtitle_langs req) ["en"]) in
      let args := args ++ ["--write-subs"; "--sub-langs"; langs] in
      if embed_subs req then args ++ ["--embed-subs"] else args
    else args in
  let args :=
    match env_FFMPEG_PATH env with
    | Some p =>
        if Py.truthy_str p then args ++ ["--ffmpeg-location"; p] else args
    | None => args
    end in
  let args :=
    if String.eqb
         (Py.lower (environ_get (env_ENABLE_SPONSORBLOCK env) "false")) "true"
    then args ++ ["--sponsorblock-remove"; "sponsor,intro,outro"]
    else args in
  args.

(** ** Fetch: artifact scan *)

Definition media_exts : list string :=
  [".mp4"; ".mp3"; ".mkv"; ".webm"; ".m4a"; ".opus"; ".wav"].

(** [os.walk(top)], top-down: one triple (root, dirs, files) per readable
    directory, a directory before its sub-directories. *)
Fixpoint walk (top : string) (t : tree)
  : list (string * list string * list string) :=
  match t with
  | Unreadable => []
  | Dir files dirs =>
      (top, map fst dirs, files)
        :: flat_map (fun d => walk (OsPath.join top (fst d)) (snd d)) dirs
  end.

(** The inner loop: the first file of one directory with a media
    extension, joined to the directory, or the value held before. *)
Fixpoint scan_files (root : string) (files : list string)
  (chosen_file : option string) : option string :=
  match files with
  | [] => chosen_file
  | f :: rest =>
      if Py.endswith_any f media_exts then Some (OsPath.join root f)
      else scan_files root rest chosen_file
  end.

(** The outer loop, leaving as soon as [chosen_file] is true. *)
Fixpoint scan_walk (entries : list (string * list string * list string))
  (chosen_file : option string) : option string :=
  match entries with
  | [] => chosen_file
  | (root, _, files) :: rest =>
      let chosen_file := scan_files root files chosen_file in
      if Py.truthy_opt chosen_file then chosen_file
      else scan_walk rest chosen_file
  end.

(** Lines 136-149: the path handed back for a session directory. *)
Definition locate (out_dir : string) (t : tree) : string :=
  let chosen_file := scan_walk (walk out_dir t) None in
  if negb (Py.truthy_opt chosen_file) then out_dir
  else match chosen_file with
       | Some p => p
       | None => out_dir
       end.

(** ** Fetch operation *)

Definition history_record (session_id out_dir chosen_file output : string)
  (req : DownloadRequest) : document :=
  [ ("session_id", VStr session_id);
    ("url", VStr (url req));
    ("format", VStr (format_str (format req)));
    ("audio_only", VBool (audio_only req));
    ("subtitles", VBool (subtitles req));
    ("embed_subs", VBool (embed_subs req));
    ("out_dir", VStr out_dir);
    ("output_hint", VStr chosen_file);
    ("stdout", VStr output) ].

Definition yt_dlp_download (w : World) (req : DownloadRequest) : M string :=
  let session_id := uuid4 w in
  let out_dir := OsPath.join (DOWNLOAD_ROOT (environ w)) session_id in
  emit (EvMakedirs out_dir) ;;;
  (if makedirs_ok w out_dir then ret tt else raise OSError) ;;;
  let args := fetch_args (environ w) out_dir req in
  output <- run_cmd w args ;;
  let chosen_file := locate out_dir (listing w out_dir) in
  try_except_pass
    (create_document w "history"
       (history_record session_id out_dir chosen_file output req)) ;;;
  ret chosen_file.

(** ** Convert operation *)

Definition opt_list_value (o : option (list string)) : value :=
  match o with
  | Some l => VList l
  | None => VNone
  end.

(** Lines 188-198 of [ffmpeg_convert]: the output path and the command. *)
Definition convert_cmd (req : ConvertRequest) : list string * string :=
  let base := fst (OsPath.splitext (input_path req)) in
  let out_path := base +++ "_conv." +++ format_str (output_format req) in
  let cmd := ["ffmpeg"; "-y"; "-i"; input_path req] in
  let cmd :=
    match start req with
    | Some s => if Py.truthy_str s then cmd ++ ["-ss"; s] else cmd
    | None => cmd
    end in
  let cmd :=
    match end_ req with
    | Some s => if Py.truthy_str s then cmd ++ ["-to"; s] else cmd
    | None => cmd
    end in
  let cmd :=
    match extra_args req with
    | Some (x :: l) => cmd ++ (x :: l)
    | _ => cmd
    end in
  let cmd := cmd ++ [out_path] in
  (cmd, out_path).

Definition ffmpeg_convert (w : World) (req : ConvertRequest) : M string :=
  if negb (path_exists w (input_path req)) then
    raise (HTTPException 404 "Input file not found")
  else
    let (cmd, out_path) := convert_cmd req in
    run_cmd w cmd ;;;
    try_except_pass
      (create_document w "conversions"
         [ ("input", VStr (input_path req));
           ("output", VStr out_path);
           ("extra_args", opt_list_value (extra_args req)) ]) ;;;
    ret out_path.

(** ** Vocabulary of the statements *)

(** [a] immediately followed by [b] somewhere in [l]. *)
Definition contains_pair (a b : string) (l : list string) : Prop :=
  exists l1 l2, l = l1 ++ a :: b :: l2.

(** [p] occurs in [l] as a block of consecutive elements. *)
Definition contains_run (p l : list string) : Prop :=
  exists l1 l2, l = l1 ++ p ++ l2.

(** Field updates of a fetch request. *)
Definition with_url (u : string) (r : DownloadRequest) : DownloadRequest :=
  {| url := u; format := format r; quality := quality r;
     subtitles := subtitles r; subtitle_langs := subtitle_langs r;
     embed_subs := embed_subs r; audio_only := audio_only r;
     filename_template := filename_template r; ffmpeg_args := ffmpeg_args r |}.

Definition with_quality (q : option string) (r : DownloadRequest)
  : DownloadRequest :=
  {| url := url r; format := format r; quality := q;
     subtitles := subtitles r; subtitle_langs := subtitle_langs r;
     embed_subs := embed_subs r; audio_only := audio_only r;
     filename_template := filename_template r; ffmpeg_args := ffmpeg_args r |}.

Definition with_subtitle_opts (langs : option (list string)) (embed : bool)
  (r : DownloadRequest) : DownloadRequest :=
  {| url := url r; format := format r; quality := quality r;
     subtitles := subtitles r; subtitle_langs := langs;
     embed_subs := embed; audio_only := audio_only r;
     filename_template := filename_template r; ffmpeg_args := ffmpeg_args r |}.

(** The four segments of the fetch argument vector, in the order the
    builder appends them. *)
Definition outtmpl_of (out_dir : string) (req : DownloadRequest) : string :=
  OsPath.join out_dir
    (if Py.truthy_opt (filename_template req)
     then environ_get (filename_template req) ""
     else "%(title)s-%(id)s.%(ext)s").

Definition base_part (out_dir : string) (req : DownloadRequest) : list string :=
  [ "yt-dlp"; url req; "-o"; outtmpl_of out_dir req;
    "--merge-output-format"; format_str (format req) ].

Definition quality_part (req : DownloadRequest) : list string :=
  if audio_only req then ["-x"; "--audio-format"; format_str (format req)]
  else if Py.truthy_opt (quality req)
          && negb (Py.in_tuple (environ_get (quality req) "") ["best"; "worst"])
       then ["-f"; environ_get (quality req) ""]
       else ["-f"; "bestvideo+bestaudio/best"].

Definition langs_of (req : DownloadRequest) : string :=
  Py.join "," (Py.list_or (subtitle_langs req) ["en"]).

Definition subtitle_part (req : DownloadRequest) : list string :=
  if subtitles req then
    ["--write-subs"; "--sub-langs"; langs_of req]
      ++ (if embed_subs req then ["--embed-subs"] else [])
  else [].

Definition env_part (env : Environ) : list string :=
  (if Py.truthy_opt (env_FFMPEG_PATH env)
   then ["--ffmpeg-location"; environ_get (env_FFMPEG_PATH env) ""]
   else [])
  ++ (if String.eqb
           (Py.lower (environ_get (env_ENABLE_SPONSORBLOCK env) "false")) "true"
      then ["--sponsorblock-remove"; "sponsor,intro,outro"]
      else []).

(** A trim option as the convert command carries it: the flag and its
    value when the value is present and not the empty string. *)
Definition trim_flag (flag : string) (v : option string) : list string :=
  match v with
  | Some (String c s) => [flag; String c s]
  | _ => []
  end.

Definition opt_list (o : option (list string)) : list string :=
  match o with
  | Some l => l
  | None => []
  end.

(** An extension as [splitext] splits it off: empty, or a dot followed
    by characters that are neither dots nor separators. *)
Fixpoint free_of (c : ascii) (s : string) : bool :=
  match s with
  | EmptyString => true
  | String a s' => negb (Ascii.eqb a c) && free_of c s'
  end.

Definition is_extension (ext : string) : Prop :=
  ext = "" \/
  exists r, ext = String "."%char r /\
            free_of "."%char r = true /\ free_of "/"%char r = true.

(** The files of a walk, each with its directory, in visiting order. *)
Definition walked_files (entries : list (string * list string * list string))
  : list (string * string) :=
  flat_map (fun e => map (pair (fst (fst e))) (snd e)) entries.

Definition is_media (x : string * string) : bool :=
  Py.endswith_any (snd x) media_exts.

(** The session directory of a request: [os.path.join(DOWNLOAD_ROOT,
    session_id)]. *)
Definition session_dir (w : World) : string :=
  OsPath.join (DOWNLOAD_ROOT (environ w)) (uuid4 w).

(** ** Concrete scenarios *)

Definition plain_env : Environ :=
  {| env_DOWNLOAD_ROOT := None; env_FFMPEG_PATH := None;
     env_ENABLE_SPONSORBLOCK := None |}.

(** A world over [plain_env] in which directories can be created, set by
    the behaviour of the child process, whether the document store
    accepts writes, whether paths exist, and the tree the fetch tool
    leaves behind. *)
Definition scenario (proc : list string -> completed) (store_ok found : bool)
  (t : tree) : World :=
  {| environ := plain_env;
     uuid4 := "2f1c9a7e-5b34-4d08-9e6a-0c3d7b8812af";
     makedirs_ok := fun _ => true;
     path_exists := fun _ => found;
     subprocess_run := proc;
     listing := fun _ => t;
     create_document_ok := fun _ _ => store_ok;
     repr_cmd := fun cmd =>
       "[" +++ Py.join ", " (map (fun a => "'" +++ a +++ "'") cmd) +++ "]";
     exit_phrase := fun _ => "returned non-zero exit status 1." |}.

Definition json_only : tree := Dir ["video-abc.info.json"] [].

Definition nested_media : tree :=
  Dir ["notes.json"] [("clips", Dir ["cover.txt"; "b.mp3"; "c.mp4"] [])].

(** The tool succeeds, the store is down. *)
Definition store_down : World :=
  scenario (fun _ => Exited 0 "done") false true nested_media.

(** The tool exits with status 1 and prints nothing. *)
Definition silent_failure : World :=
  scenario (fun _ => Exited 1 "") true true json_only.

(** The tool exits with status 1 after printing 3018 characters. *)
Definition long_log : string :=
  String.concat "" (repeat "frame= 0123 fps= 25 " 150) +++ "Conversion failed!".

Definition noisy_failure : World :=
  scenario (fun _ => Exited 1 long_log) true true json_only.

(** The input file of a conversion is absent. *)
Definition input_missing : World :=
  scenario (fun _ => Exited 0 "done") true false json_only.

Definition fetch_best : DownloadRequest :=
  {| url := "http://x/video"; format := mp4; quality := Some "best";
     subtitles := false; subtitle_langs := Some ["en"]; embed_subs := false;
     audio_only := false; filename_template := None; ffmpeg_args := None |}.

Definition fetch_audio_custom : DownloadRequest :=
  {| url := "http://x/video"; format := mp3; quality := Some "bestaudio[abr>128]";
     subtitles := false; subtitle_langs := Some ["en"]; embed_subs := false;
     audio_only := true; filename_template := None; ffmpeg_args := None |}.

(** An audio-only request whose url is the text of the selector flag. *)
Definition fetch_audio_url_f : DownloadRequest :=
  {| url := "-f"; format := mp3; quality := Some "best";
     subtitles := false; subtitle_langs := Some ["en"]; embed_subs := false;
     audio_only := true; filename_template := None; ffmpeg_args := None |}.

Definition fetch_embed_only : DownloadRequest :=
  {| url := "http://x/video"; format := mp4; quality := Some "best";
     subtitles := false; subtitle_langs := Some ["de"; "fr"]; embed_subs := true;
     audio_only := false; filename_template := None; ffmpeg_args := None |}.

(** A request without subtitles whose url is the text of a subtitle flag. *)
Definition fetch_url_write_subs : DownloadRequest :=
  {| url := "--write-subs"; format := mp4; quality := Some "best";
     subtitles := false; subtitle_langs := Some ["en"]; embed_subs := false;
     audio_only := false; filename_template := None; ffmpeg_args := None |}.

Definition fetch_subs_no_langs : DownloadRequest :=
  {| url := "http://x/video"; format := mkv; quality := Some "best";
     subtitles := true; subtitle_langs := Some []; embed_subs := false;
     audio_only := false; filename_template := None; ffmpeg_args := None |}.

Definition convert_trim : ConvertRequest :=
  {| input_path := "a/video.mp4"; output_format := mp3;
     start := Some "00:00:05"; end_ := Some "00:00:15";
     extra_args := Some ["-vn"] |}.

(** ** The remaining endpoints *)

(** [os.path.basename(p)]: what follows the last separator. *)
Definition basename (p : string) : string :=
  Py.slice_from (Py.rfind "/"%char p + 1) p.

(** [try: m  except Exception: h]. *)
Definition try_except {A} (m : M A) (h : M A) : M A :=
  fun t =>
    match m t with
    | (Returns a, t') => (Returns a, t')
    | (Raises _, t') => h t'
    end.

(** [POST /api/download]. *)
Definition download_media (w : World) (req : DownloadRequest) : M document :=
  path <- yt_dlp_download w req ;;
  ret [("path", VStr path)].

(** [POST /api/convert]. *)
Definition convert_media (w : World) (req : ConvertRequest) : M document :=
  out_path <- ffmpeg_convert w req ;;
  ret [("output", VStr out_path)].

(** [GET /api/probe]. *)
Definition probe_media (w : World) (path : string) : M document :=
  if negb (path_exists w path) then
    raise (HTTPException 404 "File not found")
  else
    output <- run_cmd w ["ffprobe"; "-hide_banner"; "-i"; path] ;;
    ret [("raw", VStr output)].

(** [FileResponse(path, filename=filename)]. *)
Record FileResponse : Type := {
  response_path : string;
  response_filename : string
}.

(** [GET /api/file]. *)
Definition get_file (w : World) (path : string) : M FileResponse :=
  if negb (path_exists w path) then
    raise (HTTPException 404 "File not found")
  else
    let filename := basename path in
    ret {| response_path := path; response_filename := filename |}.

(** Values of the documents read back from the store: an [ObjectId]
    (by its hexadecimal text) or a plain field value. *)
Inductive stored : Type :=
  | SObjectId (hex : string)
  | SField (v : value).

Definition stored_doc : Type := list (string * stored).

(** The database module as the service sees it. *)
Record Database : Type := {
  (** [db.name] when [hasattr(db, 'name')] *)
  db_name : option string;
  (** [db.list_collection_names()]: the names, or the text of the
      exception it raises *)
  list_collection_names : string + list string
}.

Record Store : Type := {
  (** [get_documents(collection, limit=limit)]: the documents, or [None]
      when it raises *)
  get_documents_result : string -> Z -> option (list stored_doc);
  (** [db] *)
  db : option Database;
  (** [os.getenv("DATABASE_URL")], [os.getenv("DATABASE_NAME")] *)
  env_DATABASE_URL : option string;
  env_DATABASE_NAME : option string;
  (** [str] of a list of strings *)
  str_list : list string -> string
}.

(** [d.get(k)] on a dict held as an association list with distinct keys. *)
Fixpoint dict_get (k : string) (d : stored_doc) : option stored :=
  match d with
  | [] => None
  | (k', v) :: d' => if String.eqb k' k then Some v else dict_get k d'
  end.

(** [d[k] = v]: the value of an existing key is replaced where it stands,
    a new key goes to the end. *)
Fixpoint dict_set (k : string) (v : stored) (d : stored_doc) : stored_doc :=
  match d with
  | [] => [(k, v)]
  | (k', v') :: d' =>
      if String.eqb k' k then (k, v) :: d' else (k', v') :: dict_set k v d'
  end.

(** [str(x)] for what [d.get] returns. *)
Definition py_str (st : Store) (x : option stored) : string :=
  match x with
  | None => "None"
  | Some (SObjectId hex) => hex
  | Some (SField (VStr s)) => s
  | Some (SField (VBool true)) => "True"
  | Some (SField (VBool false)) => "False"
  | Some (SField (VList l)) => str_list st l
  | Some (SField VNone) => "None"
  end.

Definition get_documents (st : Store) (collection : string) (limit : Z)
  : M (list stored_doc) :=
  match get_documents_result st collection limit with
  | Some docs => ret docs
  | None => raise OSError
  end.

(** [GET /api/history]: the value under "items". *)
Definition history (st : Store) (limit : Z) : M (list stored_doc) :=
  try_except
    (docs <- get_documents st "history" limit ;;
     ret (map (fun d =>
                 dict_set "_id"
                   (SField (VStr (py_str st (dict_get "_id" d)))) d)
              docs))
    (ret []).

(** [GET /test]: the status report.  Reading [db.name] is taken not to
    raise, so the outer handler of the source has nothing to catch. *)
Record DbStatus : Type := {
  st_backend : string;
  st_database : string;
  st_database_url : option string;
  st_database_name : option string;
  st_connection_status : string;
  st_collections : list string
}.

Definition test_database (st : Store) : DbStatus :=
  let response :=
    {| st_backend := "✅ Running";
       st_database := "❌ Not Available";
       st_database_url := None;
       st_database_name := None;
       st_connection_status := "Not Connected";
       st_collections := [] |} in
  let response :=
    match db st with
    | Some d =>
        let name :=
          match db_name d with
          | Some n => n
          | None => "✅ Connected"
          end in
        match list_collection_names d with
        | inr collections =>
            {| st_backend := st_backend response;
               st_database := "✅ Connected & Working";
               st_database_url := Some "✅ Configured";
               st_database_name := Some name;
               st_connection_status := "Connected";
               st_collections := firstn 10 collections |}
        | inl e =>
            {| st_backend := st_backend response;
               st_database :=
                 "⚠️  Connected but Error: " +++ Py.slice_to 50 e;
               st_database_url := Some "✅ Configured";
               st_database_name := Some name;
               st_connection_status := "Connected";
               st_collections := st_collections response |}
        end
    | None =>
        {| st_backend := st_backend response;
           st_database := "⚠️  Available but not initialized";
           st_database_url := st_database_url response;
           st_database_name := st_database_name response;
           st_connection_status := st_connection_status response;
           st_collections := st_collections response |}
    end in
  {| st_backend := st_backend response;
     st_database := st_database response;
     st_database_url :=
       Some (if Py.truthy_opt (env_DATABASE_URL st) then "✅ Set"
             else "❌ Not Set");
     st_database_name :=
       Some (if Py.truthy_opt (env_DATABASE_NAME st) then "✅ Set"
             else "❌ Not Set");
     st_connection_status := st_connection_status response;
     st_collections := st_collections response |}.

(** ** Further vocabulary *)

Definition with_ffmpeg_args (a : option (list string)) (r : DownloadRequest)
  : DownloadRequest :=
  {| url := url r; format := format r; quality := quality r;
     subtitles := subtitles r; subtitle_langs := subtitle_langs r;
     embed_subs := embed_subs r; audio_only := audio_only r;
     filename_template := filename_template r; ffmpeg_args := a |}.

Definition with_options (s e : option string) (x : option (list string))
  (r : ConvertRequest) : ConvertRequest :=
  {| input_path := input_path r; output_format := output_format r;
     start := s; end_ := e; extra_args := x |}.

Definition with_FFMPEG_PATH (p : option string) (env : Environ) : Environ :=
  {| env_DOWNLOAD_ROOT := env_DOWNLOAD_ROOT env; env_FFMPEG_PATH := p;
     env_ENABLE_SPONSORBLOCK := env_ENABLE_SPONSORBLOCK env |}.

Definition is_record (ev : event) : bool :=
  match ev with
  | EvCreateDocument _ _ => true
  | _ => false
  end.

Definition is_spawn (ev : event) : bool :=
  match ev with
  | EvSpawn _ => true
  | _ => false
  end.

Definition returned {A} (o : outcome A) : bool :=
  match o with
  | Returns _ => true
  | Raises _ => false
  end.

Definition with_SPONSORBLOCK (v : option string) (env : Environ) : Environ :=
  {| env_DOWNLOAD_ROOT := env_DOWNLOAD_ROOT env;
     env_FFMPEG_PATH := env_FFMPEG_PATH env;
     env_ENABLE_SPONSORBLOCK := v |}.

(** One of the two spellings of a letter, given in lower case. *)
Definition either_case (lo : ascii) (c : ascii) : bool :=
  Ascii.eqb c lo || Ascii.eqb c (ascii_of_nat (nat_of_ascii lo - 32)).

(** The sixteen spellings of "true" in mixed case. *)
Definition spells_true (v : option string) : bool :=
  match v with
  | Some (String a (String b (String c (String d EmptyString)))) =>
      either_case "t" a && either_case "r" b
      && either_case "u" c && either_case "e" d
  | _ => false
  end.

(** Further scenarios. *)

(** The tool exits with status 2 after printing a short message. *)
Definition tool_rejects : World :=
  scenario (fun _ => Exited 2 "ERROR: Unsupported URL") true true nested_media.

(** The download root is not writable. *)
Definition readonly_root : World :=
  {| environ := plain_env;
     uuid4 := "7a0e4c55-91d2-4b6f-8c3a-5e2f1d0b9a64";
     makedirs_ok := fun _ => false;
     path_exists := fun _ => true;
     subprocess_run := fun _ => Exited 0 "done";
     listing := fun _ => nested_media;
     create_document_ok := fun _ _ => true;
     repr_cmd := fun _ => "[]";
     exit_phrase := fun _ => "returned non-zero exit status 1." |}.

(** The tool binary is not installed. *)
Definition tool_missing : World :=
  scenario (fun _ => NotStarted) true true json_only.

(** The document store cannot be read. *)
Definition unreadable_store : Store :=
  {| get_documents_result := fun _ _ => None;
     db := Some {| db_name := None;
                   list_collection_names :=
                     inl "ServerSelectionTimeoutError: localhost:27017: [Errno 111] Connection refused" |};
     env_DATABASE_URL := Some "";
     env_DATABASE_NAME := Some "media";
     str_list := fun l => "[" +++ Py.join ", " l +++ "]" |}.

Definition fetch_custom : DownloadRequest :=
  {| url := "http://x/video"; format := mkv;
     quality := Some "bestvideo[height<=720]+bestaudio";
     subtitles := true; subtitle_langs := Some ["de"; "fr"]; embed_subs := true;
     audio_only := false; filename_template := Some "/srv/out/%(id)s.%(ext)s";
     ffmpeg_args := Some ["-threads"; "2"] |}.

Definition sponsor_env : Environ :=
  {| env_DOWNLOAD_ROOT := Some "/data"; env_FFMPEG_PATH := Some "/opt/ffmpeg";
     env_ENABLE_SPONSORBLOCK := Some "TrUe" |}.

Definition convert_plain : ConvertRequest :=
  {| input_path := "media/clip"; output_format := wav;
     start := Some ""; end_ := None; extra_args := Some [] |}.

Definition history_store : Store :=
  {| get_documents_result := fun _ _ =>
       Some [ [ ("_id", SObjectId "65f1c0ffee0ddba11ad0beef");
                ("url", SField (VStr "http://x/video")) ];
              [ ("url", SField (VStr "http://y/audio")) ] ];
     db := Some {| db_name := Some "media";
                   list_collection_names :=
                     inr ["c01"; "c02"; "c03"; "c04"; "c05"; "c06";
                          "c07"; "c08"; "c09"; "c10"; "c11"; "c12"] |};
     env_DATABASE_URL := Some "mongodb://localhost";
     env_DATABASE_NAME := None;
     str_list := fun l => "[" +++ Py.join ", " l +++ "]" |}.

(** ** Lemmas on strings *)

Section StringFacts.

Lemma append_nil_r (s : string) : s +++ "" = s.
  Proof. induction s; simpl; congruence. Qed.

Lemma truthy_append (a b : string) :
    Py.truthy_str (a +++ b) = Py.truthy_str a || Py.truthy_str b.
  Proof. destruct a; reflexivity. Qed.

Lemma truthy_str_iff (s : string) : Py.truthy_str s = true <-> s <> "".
  Proof. destruct s; simpl; split; congruence. Qed.

Lemma take_drop (n : nat) (s : string) : Py.take n s +++ Py.drop n s = s.
  Proof.
    revert s; induction n as [|n IH]; intros [|c s]; simpl; try reflexivity.
    now rewrite IH.
  Qed.

Lemma length_drop (n : nat) (s : string) :
    String.length (Py.drop n s) = String.length s - n.
  Proof.
    revert s; induction n as [|n IH]; intros [|c s]; simpl; auto.
  Qed.

Lemma endswith_spec (s suf : string) :
    Py.endswith s suf = true <-> exists p, s = p +++ suf.
  Proof.
    induction s as [|c s IH]; cbn [Py.endswith].
    - rewrite orb_false_r, String.eqb_eq. split.
      + intros <-. now exists "".
      + intros [[|a p] H]; simpl in H; [auto | discriminate].
    - rewrite orb_true_iff, String.eqb_eq, IH. split.
      + intros [<- | [p ->]]; [now exists "" | now exists (String c p)].
      + intros [[|a p] H]; simpl in H; [now left | right].
        injection H as _ ->. now exists p.
  Qed.

Lemma endswith_nonempty (s suf : string) :
    Py.endswith s suf = true -> suf <> "" -> s <> "".
  Proof.
    intros H Hs ->. apply endswith_spec in H as [[|a p] H]; simpl in H.
    - now subst.
    - discriminate.
  Qed.

Lemma slice_from_suffix (i : Z) (s : string) :
    exists p, s = p +++ Py.slice_from i s.
  Proof.
    unfold Py.slice_from. eexists. symmetry. apply take_drop.
  Qed.

Lemma length_slice_from_neg (n : nat) (s : string) :
    (0 < n)%nat ->
    String.length (Py.slice_from (- Z.of_nat n) s) = Nat.min n (String.length s).
  Proof.
    intros Hn. unfold Py.slice_from, Py.clamp, Py.len.
    rewrite length_drop.
    destruct (Z.ltb_spec (- Z.of_nat n) 0); lia.
  Qed.

End StringFacts.

(** ** Lemmas on [rfind] and [splitext] *)

Section SplitextFacts.

Lemma rfind_range (c : ascii) (s : string) :
    (-1 <= Py.rfind c s < Py.len s)%Z.
  Proof.
    unfold Py.len. induction s as [|a s IH]; simpl String.length; simpl Py.rfind.
    - lia.
    - destruct (Z.leb_spec 0 (Py.rfind c s)); [lia|].
      destruct (Ascii.eqb a c); lia.
  Qed.

Lemma rfind_below_free (c : ascii) (s : string) (n : nat) :
    (Py.rfind c s < Z.of_nat n)%Z -> free_of c (Py.drop n s) = true.
  Proof.
    revert n; induction s as [|a s IH]; intros n H.
    - destruct n; reflexivity.
    - simpl Py.rfind in H.
      destruct (Z.leb_spec 0 (Py.rfind c s)) as [Hr|Hr].
      + destruct n as [|n]; [lia|]. simpl. apply IH. lia.
      + destruct n as [|n].
        * destruct (Ascii.eqb a c) eqn:E; [lia|].
          simpl. rewrite E. simpl. apply (IH 0%nat). lia.
        * simpl. apply IH. lia.
  Qed.

Lemma rfind_drop (c : ascii) (s : string) :
    (0 <= Py.rfind c s)%Z ->
    exists r, Py.drop (Z.to_nat (Py.rfind c s)) s = String c r
              /\ free_of c r = true.
  Proof.
    induction s as [|a s IH]; simpl Py.rfind.
    - lia.
    - destruct (Z.leb_spec 0 (Py.rfind c s)) as [Hr|Hr].
      + intros _. destruct (IH Hr) as (r & Hd & Hf). exists r. split; [|exact Hf].
        replace (Z.to_nat (Py.rfind c s + 1)) with (S (Z.to_nat (Py.rfind c s))) by lia.
        exact Hd.
      + destruct (Ascii.eqb_spec a c) as [->|Hn]; [|lia].
        intros _. exists s. split; [reflexivity|].
        replace s with (Py.drop 0 s) by (destruct s; reflexivity).
        apply rfind_below_free. simpl. lia.
  Qed.

Lemma free_of_drop_succ (c a : ascii) (s r : string) (n : nat) :
    free_of c (Py.drop n s) = true -> Py.drop n s = String a r ->
    free_of c r = true.
  Proof.
    intros H E. rewrite E in H. simpl in H.
    now apply andb_true_iff in H.
  Qed.

Lemma clamp_index (i : Z) (s : string) :
    (0 <= i <= Py.len s)%Z -> Py.clamp i s = i.
  Proof.
    intros H. unfold Py.clamp. destruct (Z.ltb_spec i 0); lia.
  Qed.

  (** The two halves of [splitext] glue back to the path. *)
Lemma splitext_append (p : string) :
    fst (OsPath.splitext p) +++ snd (OsPath.splitext p) = p.
  Proof.
    unfold OsPath.splitext.
    destruct (Z.ltb_spec (Py.rfind "/" p) (Py.rfind "." p));
      [|apply append_nil_r].
    destruct (OsPath.has_non_dot _ _ _); [|apply append_nil_r].
    simpl. unfold Py.slice_to, Py.slice_from. apply take_drop.
  Qed.

  (** The second half is an extension: no dot and no separator after its
      leading dot. *)
Lemma splitext_extension (p : string) :
    is_extension (snd (OsPath.splitext p)).
  Proof.
    unfold OsPath.splitext.
    destruct (Z.ltb_spec (Py.rfind "/" p) (Py.rfind "." p)) as [H|H];
      [|now left].
    destruct (OsPath.has_non_dot _ _ _); [|now left].
    right. simpl. unfold Py.slice_from.
    pose proof (rfind_range "/" p) as Hs.
    pose proof (rfind_range "." p) as Hd.
    rewrite clamp_index by lia.
    destruct (rfind_drop "." p) as (r & Hr & Hf); [lia|].
    exists r. repeat split; auto.
    apply (free_of_drop_succ "/" "." p r (Z.to_nat (Py.rfind "." p))); auto.
    apply rfind_below_free. lia.
  Qed.

Lemma splitext_example :
    OsPath.splitext "a/video.mp4" = ("a/video", ".mp4").
  Proof. reflexivity. Qed.

End SplitextFacts.

(** ** The fetch argument vector, segment by segment *)

Section FetchArgs.

Variable env : Environ.
Variable out_dir : string.

Lemma fetch_args_parts (req : DownloadRequest) :
    fetch_args env out_dir req =
    base_part out_dir req ++ quality_part req ++ subtitle_part req
      ++ env_part env.
  Proof.
    unfold fetch_args, base_part, quality_part, subtitle_part, env_part,
      outtmpl_of, langs_of.
    destruct (filename_template req) as [[|? ?]|];
      destruct (audio_only req);
      destruct (quality req) as [[|? ?]|];
      cbn [Py.truthy_opt Py.truthy_str environ_get andb negb];
      try destruct (Py.in_tuple _ _);
      cbn [andb negb];
      destruct (subtitles req); destruct (embed_subs req);
      destruct (env_FFMPEG_PATH env) as [[|? ?]|];
      cbn [Py.truthy_opt Py.truthy_str environ_get];
      destruct (String.eqb _ _);
      cbn [app]; reflexivity.
  Qed.

Lemma in_base_part (x : string) (req : DownloadRequest) :
    In x (base_part out_dir req) ->
    x = "yt-dlp" \/ x = url req \/ x = "-o" \/ x = outtmpl_of out_dir req
    \/ x = "--merge-output-format" \/ x = format_str (format req).
  Proof. unfold base_part. simpl. intuition auto. Qed.

Lemma in_env_part (x : string) :
    In x (env_part env) ->
    x = "--ffmpeg-location" \/ env_FFMPEG_PATH env = Some x
    \/ x = "--sponsorblock-remove" \/ x = "sponsor,intro,outro".
  Proof.
    unfold env_part.
    destruct (env_FFMPEG_PATH env) as [[|? ?]|];
      cbn [Py.truthy_opt Py.truthy_str environ_get];
      destruct (String.eqb _ _); simpl; intuition auto.
    all: subst; auto.
  Qed.

Lemma in_subtitle_part (x : string) (req : DownloadRequest) :
    In x (subtitle_part req) ->
    subtitles req = true /\
    (x = "--write-subs" \/ x = "--sub-langs" \/ x = langs_of req
     \/ x = "--embed-subs").
  Proof.
    unfold subtitle_part.
    destruct (subtitles req); [|intros []].
    destruct (embed_subs req); simpl; intuition auto.
  Qed.

Lemma in_quality_part (x : string) (req : DownloadRequest) :
    In x (quality_part req) ->
    (audio_only req = true /\
     (x = "-x" \/ x = "--audio-format" \/ x = format_str (format req)))
    \/ (audio_only req = false /\
        (x = "-f" \/ quality req = Some x \/ x = "bestvideo+bestaudio/best")).
  Proof.
    unfold quality_part. intros H.
    destruct (audio_only req); [left | right]; (split; [reflexivity|]).
    - simpl in H. intuition auto.
    - destruct (quality req) as [q|]; cbn [Py.truthy_opt environ_get] in H.
      + destruct (_ && _) in H; simpl in H; intuition auto.
        subst; auto.
      + simpl in H. intuition auto.
  Qed.

End FetchArgs.

(** ** Lemmas on the artifact scan *)

Section Locator.

Lemma media_name_truthy (f : string) :
    Py.endswith_any f media_exts = true -> Py.truthy_str f = true.
  Proof.
    unfold Py.endswith_any. rewrite existsb_exists.
    intros (suf & Hin & He). apply truthy_str_iff.
    apply (endswith_nonempty f suf He).
    simpl in Hin. intuition (subst; discriminate).
  Qed.

Lemma join_truthy (a f : string) :
    Py.truthy_str f = true -> Py.truthy_str (OsPath.join a f) = true.
  Proof.
    intros H. unfold OsPath.join.
    destruct (Py.startswith f "/"); [exact H|].
    destruct (_ || _); rewrite !truthy_append, H; apply orb_true_r.
  Qed.

Lemma scan_files_find (root : string) (files : list string)
    (chosen : option string) :
    scan_files root files chosen =
    match find (fun f => Py.endswith_any f media_exts) files with
    | Some f => Some (OsPath.join root f)
    | None => chosen
    end.
  Proof.
    induction files as [|f files IH]; cbn [scan_files find]; [reflexivity|].
    destruct (Py.endswith_any f media_exts); [reflexivity | exact IH].
  Qed.

Lemma find_map_pair (root : string) (files : list string) :
    find is_media (map (pair root) files) =
    option_map (pair root)
      (find (fun f => Py.endswith_any f media_exts) files).
  Proof.
    induction files as [|f files IH]; cbn [map find]; [reflexivity|].
    unfold is_media at 1. cbn [snd].
    destruct (Py.endswith_any f media_exts); [reflexivity | exact IH].
  Qed.

Lemma find_app_first {A} (p : A -> bool) (l1 l2 : list A) :
    find p (l1 ++ l2) =
    match find p l1 with
    | Some x => Some x
    | None => find p l2
    end.
  Proof.
    induction l1 as [|a l1 IH]; simpl; [reflexivity|].
    destruct (p a); [reflexivity | exact IH].
  Qed.

Lemma find_first {A} (p : A -> bool) (l1 l2 : list A) (x : A) :
    (forall y, In y l1 -> p y = false) -> p x = true ->
    find p (l1 ++ x :: l2) = Some x.
  Proof.
    intros Hl Hx. induction l1 as [|a l1 IH]; simpl.
    - now rewrite Hx.
    - rewrite (Hl a (or_introl eq_refl)). apply IH.
      intros y Hy. apply Hl. now right.
  Qed.

Lemma find_none_all {A} (p : A -> bool) (l : list A) :
    (forall y, In y l -> p y = false) -> find p l = None.
  Proof.
    intros Hl. induction l as [|a l IH]; simpl; [reflexivity|].
    rewrite (Hl a (or_introl eq_refl)). apply IH.
    intros y Hy. apply Hl. now right.
  Qed.

Lemma scan_walk_find (entries : list (string * list string * list string)) :
    scan_walk entries None =
    option_map (fun x => OsPath.join (fst x) (snd x))
      (find is_media (walked_files entries)).
  Proof.
    induction entries as [|[[root ds] files] entries IH]; [reflexivity|].
    cbn [scan_walk walked_files flat_map fst snd].
    rewrite scan_files_find, find_app_first, find_map_pair.
    destruct (find _ files) as [f|] eqn:E; cbn [option_map].
    - apply find_some in E as [_ E].
      cbn [Py.truthy_opt fst snd].
      now rewrite (join_truthy root f (media_name_truthy f E)).
    - cbn [Py.truthy_opt]. exact IH.
  Qed.

  (** The scan as a whole: the first media file of the walk, or the
      session directory. *)
Lemma locate_find (out_dir : string) (t : tree) :
    locate out_dir t =
    match find is_media (walked_files (walk out_dir t)) with
    | Some x => OsPath.join (fst x) (snd x)
    | None => out_dir
    end.
  Proof.
    unfold locate. rewrite scan_walk_find.
    destruct (find _ _) as [[root f]|] eqn:E; cbn [option_map fst snd];
      [|reflexivity].
    apply find_some in E as [_ E]. unfold is_media in E. simpl in E.
    cbn [Py.truthy_opt].
    now rewrite (join_truthy root f (media_name_truthy f E)).
  Qed.

End Locator.

(** ** Lemmas on the two operations *)

Section Operations.

Variable w : World.

Lemma run_cmd_exit (cmd : list string) (rc : Z) (out : string)
    (t : list event) :
    subprocess_run w cmd = Exited rc out ->
    run_cmd w cmd t =
    (if (rc =? 0)%Z then Returns out
     else Raises (HTTPException 500
                    (if Py.truthy_str out then Py.slice_from (-2000) out
                     else CalledProcessError_str w cmd rc)),
     t ++ [EvSpawn cmd]).
  Proof.
    intros H. unfold run_cmd, bind, emit. rewrite H.
    destruct (rc =? 0)%Z; reflexivity.
  Qed.

Lemma recorder_swallowed (collection : string) (doc : document)
    (t : list event) :
    try_except_pass (create_document w collection doc) t =
    (Returns tt, t ++ [EvCreateDocument collection doc]).
  Proof.
    unfold try_except_pass, create_document, bind, emit.
    destruct (create_document_ok w collection doc); reflexivity.
  Qed.

Lemma run_cmd_not_started (cmd : list string) (t : list event) :
    subprocess_run w cmd = NotStarted ->
    run_cmd w cmd t = (Raises OSError, t ++ [EvSpawn cmd]).
  Proof.
    intros H. unfold run_cmd, bind, emit. now rewrite H.
  Qed.

  (** Every path through the fetch operation. *)
Lemma yt_dlp_download_run (req : DownloadRequest) :
    run (yt_dlp_download w req) =
    let out_dir := session_dir w in
    let args := fetch_args (environ w) out_dir req in
    let chosen_file := locate out_dir (listing w out_dir) in
    if makedirs_ok w out_dir then
      match subprocess_run w args with
      | NotStarted => (Raises OSError, [EvMakedirs out_dir; EvSpawn args])
      | Exited rc out =>
          if (rc =? 0)%Z then
            (Returns chosen_file,
             [ EvMakedirs out_dir; EvSpawn args;
               EvCreateDocument "history"
                 (history_record (uuid4 w) out_dir chosen_file out req) ])
          else
            (Raises (HTTPException 500
                       (if Py.truthy_str out then Py.slice_from (-2000) out
                        else CalledProcessError_str w args rc)),
             [EvMakedirs out_dir; EvSpawn args])
      end
    else (Raises OSError, [EvMakedirs out_dir]).
  Proof.
    unfold run, yt_dlp_download. fold (session_dir w). cbv zeta.
    unfold bind at 1. unfold emit at 1.
    unfold bind at 1.
    destruct (makedirs_ok w (session_dir w)); [|reflexivity].
    unfold ret at 1. unfold bind at 1.
    destruct (subprocess_run w _) as [rc out|] eqn:Hrun.
    - rewrite (run_cmd_exit _ rc out _ Hrun).
      destruct (rc =? 0)%Z; [|reflexivity].
      unfold bind at 1. rewrite recorder_swallowed. reflexivity.
    - now rewrite (run_cmd_not_started _ _ Hrun).
  Qed.

  (** Every path through the convert operation. *)
Lemma ffmpeg_convert_run (req : ConvertRequest) :
    run (ffmpeg_convert w req) =
    let cmd := fst (convert_cmd req) in
    let out_path := snd (convert_cmd req) in
    if path_exists w (input_path req) then
      match subprocess_run w cmd with
      | NotStarted => (Raises OSError, [EvSpawn cmd])
      | Exited rc out =>
          if (rc =? 0)%Z then
            (Returns out_path,
             [ EvSpawn cmd;
               EvCreateDocument "conversions"
                 [ ("input", VStr (input_path req));
                   ("output", VStr out_path);
                   ("extra_args", opt_list_value (extra_args req)) ] ])
          else
            (Raises (HTTPException 500
                       (if Py.truthy_str out then Py.slice_from (-2000) out
                        else CalledProcessError_str w cmd rc)),
             [EvSpawn cmd])
      end
    else (Raises (HTTPException 404 "Input file not found"), []).
  Proof.
    unfold run, ffmpeg_convert. cbv zeta.
    destruct (path_exists w (input_path req)); cbn [negb]; [|reflexivity].
    destruct (convert_cmd req) as [cmd out_path]. cbn [fst snd].
    unfold bind at 1.
    destruct (subprocess_run w cmd) as [rc out|] eqn:Hrun.
    - rewrite (run_cmd_exit _ rc out _ Hrun).
      destruct (rc =? 0)%Z; [|reflexivity].
      unfold bind at 1. rewrite recorder_swallowed. reflexivity.
    - now rewrite (run_cmd_not_started _ _ Hrun).
  Qed.

Lemma convert_cmd_shape (req : ConvertRequest) :
    convert_cmd req =
    ( ["ffmpeg"; "-y"; "-i"; input_path req]
        ++ trim_flag "-ss" (start req) ++ trim_flag "-to" (end_ req)
        ++ opt_list (extra_args req)
        ++ [fst (OsPath.splitext (input_path req)) +++ "_conv."
              +++ format_str (output_format req)],
      fst (OsPath.splitext (input_path req)) +++ "_conv."
        +++ format_str (output_format req) ).
  Proof.
    unfold convert_cmd, trim_flag, opt_list.
    destruct (start req) as [[|? ?]|]; destruct (end_ req) as [[|? ?]|];
      destruct (extra_args req) as [[|? ?]|];
      cbn [Py.truthy_str app]; rewrite <- ?app_assoc; reflexivity.
  Qed.

End Operations.

(** ** Fetch invocation builder: the claims *)

Lemma format_str_not_flag (f : media_format) (x : string) :
  In x ["-f"; "--write-subs"; "--sub-langs"; "--embed-subs"] ->
  format_str f <> x.
Proof.
  intros H E. subst x. destruct f; simpl in H; intuition discriminate.
Qed.

(** C1. With [audio_only] false and [quality] equal to "best", "worst" or
    absent, the argument vector contains "-f" immediately followed by
    "bestvideo+bestaudio/best"; the value "worst" is not treated apart and
    gives the same vector as "best" (and as an absent quality). *)
Theorem C1_default_selector (env : Environ) (out_dir : string)
  (req : DownloadRequest) :
  audio_only req = false ->
  quality req = Some "best" \/ quality req = Some "worst" \/ quality req = None ->
  contains_pair "-f" "bestvideo+bestaudio/best" (fetch_args env out_dir req)
  /\ fetch_args env out_dir (with_quality (Some "worst") req)
     = fetch_args env out_dir (with_quality (Some "best") req)
  /\ fetch_args env out_dir (with_quality None req)
     = fetch_args env out_dir (with_quality (Some "best") req).
Proof.
  intros Ha Hq. split; [|split].
  - rewrite fetch_args_parts.
    assert (quality_part req = ["-f"; "bestvideo+bestaudio/best"]) as ->.
    { unfold quality_part. rewrite Ha.
      destruct Hq as [-> | [-> | ->]]; reflexivity. }
    exists (base_part out_dir req), (subtitle_part req ++ env_part env).
    reflexivity.
  - rewrite !fetch_args_parts. unfold quality_part, with_quality; simpl.
    now rewrite Ha.
  - rewrite !fetch_args_parts. unfold quality_part, with_quality; simpl.
    now rewrite Ha.
Qed.

Lemma C1_default_selector_witness :
  contains_pair "-f" "bestvideo+bestaudio/best"
    (fetch_args plain_env (session_dir store_down) fetch_best)
  /\ fetch_args plain_env (session_dir store_down)
       (with_quality (Some "worst") fetch_best)
     = fetch_args plain_env (session_dir store_down)
         (with_quality (Some "best") fetch_best)
  /\ fetch_args plain_env (session_dir store_down) (with_quality None fetch_best)
     = fetch_args plain_env (session_dir store_down)
         (with_quality (Some "best") fetch_best).
Proof.
  apply (C1_default_selector plain_env (session_dir store_down) fetch_best).
  - reflexivity.
  - left; reflexivity.
Defined.

(** C2, as stated, fails: an audio-only request whose url is "-f" yields
    an argument vector that contains "-f" (the url is passed on verbatim
    as the second element). *)
Lemma C2_counterexample :
  audio_only fetch_audio_url_f = true
  /\ fetch_args plain_env (session_dir store_down) fetch_audio_url_f
     = [ "yt-dlp"; "-f"; "-o";
         "/tmp/downloads/2f1c9a7e-5b34-4d08-9e6a-0c3d7b8812af/%(title)s-%(id)s.%(ext)s";
         "--merge-output-format"; "mp3"; "-x"; "--audio-format"; "mp3" ]
  /\ In "-f" (fetch_args plain_env (session_dir store_down) fetch_audio_url_f).
Proof.
  split; [reflexivity|]. split; [reflexivity|].
  right; left; reflexivity.
Qed.

(** C2, amended. With [audio_only] true the vector is the base segment
    followed by "-x", "--audio-format" and the requested format, then the
    subtitle and environment segments: the quality step adds no "-f"
    selector and the vector is the same for every quality string.  The
    text "-f" occurs in the vector only as a value the caller or the
    environment supplied: the url, the output template, the joined
    subtitle languages or the FFMPEG_PATH value. *)
Theorem C2_audio_only_wins (env : Environ) (out_dir : string)
  (req : DownloadRequest) :
  audio_only req = true ->
  let args := fetch_args env out_dir req in
  let fmt := format_str (format req) in
  args = [ "yt-dlp"; url req; "-o"; outtmpl_of out_dir req;
           "--merge-output-format"; fmt; "-x"; "--audio-format"; fmt ]
           ++ subtitle_part req ++ env_part env
  /\ In "-x" args
  /\ contains_pair "--audio-format" fmt args
  /\ (forall q, fetch_args env out_dir (with_quality q req) = args)
  /\ (In "-f" args ->
      url req = "-f" \/ outtmpl_of out_dir req = "-f"
      \/ (subtitles req = true /\ langs_of req = "-f")
      \/ env_FFMPEG_PATH env = Some "-f").
Proof.
  intros Ha args fmt.
  assert (Hargs : args = [ "yt-dlp"; url req; "-o"; outtmpl_of out_dir req;
                           "--merge-output-format"; fmt; "-x";
                           "--audio-format"; fmt ]
                           ++ subtitle_part req ++ env_part env).
  { unfold args. rewrite fetch_args_parts. unfold quality_part.
    rewrite Ha. reflexivity. }
  split; [exact Hargs|]. split; [|split; [|split]].
  - rewrite Hargs. simpl. tauto.
  - rewrite Hargs.
    exists [ "yt-dlp"; url req; "-o"; outtmpl_of out_dir req;
             "--merge-output-format"; fmt; "-x" ],
      (subtitle_part req ++ env_part env).
    reflexivity.
  - intros q. unfold args. rewrite !fetch_args_parts.
    unfold quality_part, with_quality; simpl. now rewrite Ha.
  - rewrite Hargs. intros Hin.
    apply in_app_or in Hin as [Hin | Hin].
    + simpl in Hin.
      pose proof (format_str_not_flag (format req) "-f" (or_introl eq_refl)).
      fold fmt in H.
      intuition (try discriminate; auto; try congruence).
    + apply in_app_or in Hin as [Hin | Hin].
      * apply in_subtitle_part in Hin as [Hs Hin].
        intuition (try discriminate; auto).
      * apply in_env_part in Hin.
        intuition (try discriminate; auto).
Qed.

Lemma C2_audio_only_wins_witness :
  let args := fetch_args plain_env (session_dir store_down) fetch_audio_custom in
  args = [ "yt-dlp"; "http://x/video"; "-o";
           outtmpl_of (session_dir store_down) fetch_audio_custom;
           "--merge-output-format"; "mp3"; "-x"; "--audio-format"; "mp3" ]
           ++ subtitle_part fetch_audio_custom ++ env_part plain_env
  /\ In "-x" args
  /\ contains_pair "--audio-format" "mp3" args
  /\ (forall q, fetch_args plain_env (session_dir store_down)
                  (with_quality q fetch_audio_custom) = args)
  /\ (In "-f" args ->
      url fetch_audio_custom = "-f"
      \/ outtmpl_of (session_dir store_down) fetch_audio_custom = "-f"
      \/ (subtitles fetch_audio_custom = true
          /\ langs_of fetch_audio_custom = "-f")
      \/ env_FFMPEG_PATH plain_env = Some "-f").
Proof.
  apply (C2_audio_only_wins plain_env (session_dir store_down)
           fetch_audio_custom).
  reflexivity.
Defined.

(** C3, as stated, fails: a request with [subtitles] false whose url is
    "--write-subs" yields an argument vector that contains
    "--write-subs". *)
Lemma C3_counterexample :
  subtitles fetch_url_write_subs = false
  /\ fetch_args plain_env (session_dir store_down) fetch_url_write_subs
     = [ "yt-dlp"; "--write-subs"; "-o";
         "/tmp/downloads/2f1c9a7e-5b34-4d08-9e6a-0c3d7b8812af/%(title)s-%(id)s.%(ext)s";
         "--merge-output-format"; "mp4"; "-f"; "bestvideo+bestaudio/best" ]
  /\ In "--write-subs"
       (fetch_args plain_env (session_dir store_down) fetch_url_write_subs).
Proof.
  split; [reflexivity|]. split; [reflexivity|].
  right; left; reflexivity.
Qed.

(** C3, amended. With [subtitles] false the subtitle step adds nothing:
    the vector is the base, quality and environment segments only, and it
    is the same for all values of [embed_subs] and [subtitle_langs]
    ([embed_subs] alone has no effect).  One of the texts "--write-subs",
    "--sub-langs", "--embed-subs" occurs in the vector only as a value the
    caller or the environment supplied: the url, the output template, a
    custom quality string or the FFMPEG_PATH value. *)
Theorem C3_subtitles_off (env : Environ) (out_dir : string)
  (req : DownloadRequest) :
  subtitles req = false ->
  let args := fetch_args env out_dir req in
  args = base_part out_dir req ++ quality_part req ++ env_part env
  /\ (forall langs embed,
        fetch_args env out_dir (with_subtitle_opts langs embed req) = args)
  /\ (forall flag,
        In flag ["--write-subs"; "--sub-langs"; "--embed-subs"] ->
        In flag args ->
        url req = flag \/ outtmpl_of out_dir req = flag
        \/ (audio_only req = false /\ quality req = Some flag)
        \/ env_FFMPEG_PATH env = Some flag).
Proof.
  intros Hs args.
  assert (Hargs : args = base_part out_dir req ++ quality_part req
                           ++ env_part env).
  { unfold args. rewrite fetch_args_parts. unfold subtitle_part.
    rewrite Hs. reflexivity. }
  split; [exact Hargs|]. split.
  - intros langs embed. unfold args. rewrite !fetch_args_parts.
    unfold subtitle_part, with_subtitle_opts; simpl. now rewrite Hs.
  - intros flag Hflag Hin. rewrite Hargs in Hin.
    assert (Hfmt : format_str (format req) <> flag).
    { apply format_str_not_flag. now right. }
    apply in_app_or in Hin as [Hin | Hin].
    + apply in_base_part in Hin. simpl in Hflag.
      intuition (subst; try discriminate; auto; try congruence).
    + apply in_app_or in Hin as [Hin | Hin].
      * apply in_quality_part in Hin. simpl in Hflag.
        intuition (subst; try discriminate; auto; try congruence).
      * apply in_env_part in Hin. simpl in Hflag.
        intuition (subst; try discriminate; auto).
Qed.

Lemma C3_subtitles_off_witness :
  let args := fetch_args plain_env (session_dir store_down) fetch_embed_only in
  args = base_part (session_dir store_down) fetch_embed_only
           ++ quality_part fetch_embed_only ++ env_part plain_env
  /\ (forall langs embed,
        fetch_args plain_env (session_dir store_down)
          (with_subtitle_opts langs embed fetch_embed_only) = args)
  /\ (forall flag,
        In flag ["--write-subs"; "--sub-langs"; "--embed-subs"] ->
        In flag args ->
        url fetch_embed_only = flag
        \/ outtmpl_of (session_dir store_down) fetch_embed_only = flag
        \/ (audio_only fetch_embed_only = false
            /\ quality fetch_embed_only = Some flag)
        \/ env_FFMPEG_PATH plain_env = Some flag).
Proof.
  apply (C3_subtitles_off plain_env (session_dir store_down) fetch_embed_only).
  reflexivity.
Defined.

(** C4. The argument vector starts with the tool name and then the url of
    the request, unchanged, as the element at index 1; the elements after
    it are the same whatever the url is, so the url is never part of
    another element.  The child process of the fetch operation is started
    on this very list of strings: every spawn event of the operation
    carries it, and one is emitted once the session directory exists. *)
Theorem C4_url_single_token (w : World) (req : DownloadRequest) :
  let args := fetch_args (environ w) (session_dir w) req in
  nth_error args 1 = Some (url req)
  /\ (exists rest, forall u,
        fetch_args (environ w) (session_dir w) (with_url u req)
        = "yt-dlp" :: u :: rest)
  /\ (forall cmd, In (EvSpawn cmd) (snd (run (yt_dlp_download w req))) ->
                  cmd = args)
  /\ (makedirs_ok w (session_dir w) = true ->
      In (EvSpawn args) (snd (run (yt_dlp_download w req)))).
Proof.
  intros args. split; [|split; [|split]].
  - unfold args. rewrite fetch_args_parts. reflexivity.
  - exists ([ "-o"; outtmpl_of (session_dir w) req;
              "--merge-output-format"; format_str (format req) ]
              ++ quality_part req ++ subtitle_part req
              ++ env_part (environ w)).
    intros u. rewrite fetch_args_parts. reflexivity.
  - intros cmd. rewrite yt_dlp_download_run. cbv zeta. fold args.
    destruct (makedirs_ok w (session_dir w)).
    + destruct (subprocess_run w args) as [rc out|];
        [destruct (rc =? 0)%Z|]; simpl;
        intuition (try discriminate; congruence).
    + simpl. intuition discriminate.
  - intros Hmk. rewrite yt_dlp_download_run. cbv zeta. fold args.
    rewrite Hmk.
    destruct (subprocess_run w args) as [rc out|];
      [destruct (rc =? 0)%Z|]; simpl; auto.
Qed.

Lemma C4_url_single_token_witness :
  let args := fetch_args (environ store_down) (session_dir store_down)
                fetch_best in
  nth_error args 1 = Some "http://x/video"
  /\ (exists rest, forall u,
        fetch_args (environ store_down) (session_dir store_down)
          (with_url u fetch_best)
        = "yt-dlp" :: u :: rest)
  /\ (forall cmd,
        In (EvSpawn cmd) (snd (run (yt_dlp_download store_down fetch_best))) ->
        cmd = args)
  /\ In (EvSpawn args) (snd (run (yt_dlp_download store_down fetch_best))).
Proof.
  destruct (C4_url_single_token store_down fetch_best) as (H1 & H2 & H3 & H4).
  split; [exact H1|]. split; [exact H2|]. split; [exact H3|].
  apply H4. reflexivity.
Defined.

(** C10. With [subtitles] true and [subtitle_langs] absent or empty, the
    vector contains "--write-subs", "--sub-langs", "en" in a row: the
    builder falls back to the single language "en", and the joined
    language string is "en", not the empty string. *)
Theorem C10_default_language (env : Environ) (out_dir : string)
  (req : DownloadRequest) :
  subtitles req = true ->
  subtitle_langs req = None \/ subtitle_langs req = Some [] ->
  contains_run ["--write-subs"; "--sub-langs"; "en"] (fetch_args env out_dir req)
  /\ contains_pair "--sub-langs" "en" (fetch_args env out_dir req)
  /\ Py.join "," (Py.list_or (subtitle_langs req) ["en"]) = "en".
Proof.
  intros Hs Hl.
  assert (Hj : Py.join "," (Py.list_or (subtitle_langs req) ["en"]) = "en").
  { destruct Hl as [-> | ->]; reflexivity. }
  assert (Hp : subtitle_part req =
               ["--write-subs"; "--sub-langs"; "en"]
                 ++ (if embed_subs req then ["--embed-subs"] else [])).
  { unfold subtitle_part, langs_of. now rewrite Hs, Hj. }
  split; [|split; [|exact Hj]].
  - exists (base_part out_dir req ++ quality_part req),
      ((if embed_subs req then ["--embed-subs"] else []) ++ env_part env).
    rewrite fetch_args_parts, Hp, <- !app_assoc. reflexivity.
  - exists (base_part out_dir req ++ quality_part req ++ ["--write-subs"]),
      ((if embed_subs req then ["--embed-subs"] else []) ++ env_part env).
    rewrite fetch_args_parts, Hp, <- !app_assoc. reflexivity.
Qed.

Lemma C10_default_language_witness :
  contains_run ["--write-subs"; "--sub-langs"; "en"]
    (fetch_args plain_env (session_dir store_down) fetch_subs_no_langs)
  /\ contains_pair "--sub-langs" "en"
       (fetch_args plain_env (session_dir store_down) fetch_subs_no_langs)
  /\ Py.join "," (Py.list_or (subtitle_langs fetch_subs_no_langs) ["en"]) = "en".
Proof.
  apply (C10_default_language plain_env (session_dir store_down)
           fetch_subs_no_langs).
  - reflexivity.
  - right; reflexivity.
Defined.

(** ** Convert invocation builder: the claims *)

(** C5. When the input path exists, the output path is the input path
    without its extension (the part [splitext] splits off: the path is the
    base followed by the extension, which is empty or a dot and characters
    that are neither dots nor separators), followed by "_conv." and the
    output format.  The command is exactly "ffmpeg", "-y", "-i", the input
    path, then "-ss" and the start when it is set (present and not empty),
    then "-to" and the end when it is set, then the extra arguments as
    given, and the output path last.  The operation starts the child
    process on that command, and returns the output path when the
    process exits with status 0. *)
Theorem C5_convert_builder (w : World) (req : ConvertRequest) :
  path_exists w (input_path req) = true ->
  let base := fst (OsPath.splitext (input_path req)) in
  let ext := snd (OsPath.splitext (input_path req)) in
  let out_path := base +++ "_conv." +++ format_str (output_format req) in
  let cmd :=
    ["ffmpeg"; "-y"; "-i"; input_path req]
      ++ trim_flag "-ss" (start req) ++ trim_flag "-to" (end_ req)
      ++ opt_list (extra_args req) ++ [out_path] in
  input_path req = base +++ ext
  /\ is_extension ext
  /\ convert_cmd req = (cmd, out_path)
  /\ last cmd "" = out_path
  /\ (exists rest, snd (run (ffmpeg_convert w req)) = EvSpawn cmd :: rest)
  /\ (forall out, subprocess_run w cmd = Exited 0 out ->
                  fst (run (ffmpeg_convert w req)) = Returns out_path).
Proof.
  intros Hex base ext out_path cmd.
  assert (Hc : convert_cmd req = (cmd, out_path)) by apply convert_cmd_shape.
  split; [symmetry; apply splitext_append|].
  split; [apply splitext_extension|].
  split; [exact Hc|]. split; [|split].
  - unfold cmd. rewrite !app_assoc. apply last_last.
  - rewrite ffmpeg_convert_run. cbv zeta. rewrite Hex, Hc. cbn [fst snd].
    destruct (subprocess_run w cmd) as [rc out|];
      [destruct (rc =? 0)%Z|]; eexists; reflexivity.
  - intros out Hrun. rewrite ffmpeg_convert_run. cbv zeta.
    rewrite Hex, Hc. cbn [fst snd]. now rewrite Hrun.
Qed.

Lemma C5_convert_builder_witness :
  "a/video.mp4" = "a/video" +++ ".mp4"
  /\ is_extension ".mp4"
  /\ convert_cmd convert_trim
     = ( [ "ffmpeg"; "-y"; "-i"; "a/video.mp4"; "-ss"; "00:00:05";
           "-to"; "00:00:15"; "-vn"; "a/video_conv.mp3" ],
         "a/video_conv.mp3" )
  /\ last [ "ffmpeg"; "-y"; "-i"; "a/video.mp4"; "-ss"; "00:00:05";
            "-to"; "00:00:15"; "-vn"; "a/video_conv.mp3" ] ""
     = "a/video_conv.mp3"
  /\ (exists rest,
        snd (run (ffmpeg_convert store_down convert_trim))
        = EvSpawn [ "ffmpeg"; "-y"; "-i"; "a/video.mp4"; "-ss"; "00:00:05";
                    "-to"; "00:00:15"; "-vn"; "a/video_conv.mp3" ] :: rest)
  /\ (forall out,
        subprocess_run store_down
          [ "ffmpeg"; "-y"; "-i"; "a/video.mp4"; "-ss"; "00:00:05";
            "-to"; "00:00:15"; "-vn"; "a/video_conv.mp3" ] = Exited 0 out ->
        fst (run (ffmpeg_convert store_down convert_trim))
        = Returns "a/video_conv.mp3").
Proof.
  exact (C5_convert_builder store_down convert_trim eq_refl).
Defined.

(** C6. When the input path does not exist, the convert operation raises
    the not-found error (HTTP status 404, "Input file not found") and
    leaves the trace as it found it: no process is started and no record
    is written. *)
Theorem C6_input_not_found (w : World) (req : ConvertRequest)
  (t : list event) :
  path_exists w (input_path req) = false ->
  ffmpeg_convert w req t
  = (Raises (HTTPException 404 "Input file not found"), t).
Proof.
  intros Hex. unfold ffmpeg_convert. rewrite Hex. reflexivity.
Qed.

Lemma C6_input_not_found_witness :
  ffmpeg_convert input_missing convert_trim []
  = (Raises (HTTPException 404 "Input file not found"), []).
Proof.
  apply (C6_input_not_found input_missing convert_trim []).
  reflexivity.
Defined.

(** ** Artifact locator: the claim *)

Lemma find_some_first {A} (p : A -> bool) (l : list A) (x : A) :
  find p l = Some x ->
  exists l1 l2, l = l1 ++ x :: l2
                /\ (forall y, In y l1 -> p y = false) /\ p x = true.
Proof.
  induction l as [|a l IH]; simpl; [discriminate|].
  destruct (p a) eqn:E.
  - intros [= ->]. exists [], l. simpl. intuition.
  - intros H. destruct (IH H) as (l1 & l2 & -> & Hl & Hx).
    exists (a :: l1), l2. simpl. intuition (subst; auto).
Qed.

(** C7. The locator is a total function of the session directory and the
    tree found there, and its result is always one of two: the first
    file, in walk order, whose name ends with one of the seven media
    extensions, joined to its directory; or, when no file of the walk has
    such a name, the session directory itself.  A tree holding only a
    ".json" file gives the session directory. *)
Theorem C7_locator_never_fails (out_dir : string) (t : tree) :
  let files := walked_files (walk out_dir t) in
  ((exists l1 root f l2,
       files = l1 ++ (root, f) :: l2
       /\ (forall y, In y l1 -> Py.endswith_any (snd y) media_exts = false)
       /\ Py.endswith_any f media_exts = true
       /\ locate out_dir t = OsPath.join root f)
   \/ ((forall y, In y files -> Py.endswith_any (snd y) media_exts = false)
       /\ locate out_dir t = out_dir))
  /\ (forall l1 root f l2,
        files = l1 ++ (root, f) :: l2 ->
        (forall y, In y l1 -> Py.endswith_any (snd y) media_exts = false) ->
        Py.endswith_any f media_exts = true ->
        locate out_dir t = OsPath.join root f)
  /\ ((forall y, In y files -> Py.endswith_any (snd y) media_exts = false) ->
      locate out_dir t = out_dir)
  /\ locate out_dir json_only = out_dir.
Proof.
  intros files. split; [|split; [|split]].
  - pose proof (locate_find out_dir t) as H. fold files in H.
    destruct (find is_media files) as [[root f]|] eqn:E.
    + left. apply find_some_first in E as (l1 & l2 & E & Hl & Hx).
      exists l1, root, f, l2. auto.
    + right. split; [|exact H].
      intros y Hy. apply (find_none _ _ E y Hy).
  - intros l1 root f l2 E Hl Hx. rewrite locate_find. fold files.
    rewrite E. now rewrite (find_first is_media l1 l2 (root, f) Hl Hx).
  - intros Hall. rewrite locate_find. fold files.
    now rewrite (find_none_all is_media files Hall).
  - rewrite locate_find. reflexivity.
Qed.

Lemma C7_locator_never_fails_witness :
  locate (session_dir store_down) nested_media
  = "/tmp/downloads/2f1c9a7e-5b34-4d08-9e6a-0c3d7b8812af/clips/b.mp3"
  /\ locate (session_dir store_down) json_only = session_dir store_down.
Proof.
  destruct (C7_locator_never_fails (session_dir store_down) nested_media)
    as (_ & Hfirst & _ & _).
  destruct (C7_locator_never_fails (session_dir store_down) json_only)
    as (_ & _ & Hnone & _).
  split.
  - apply (Hfirst
             [ (session_dir store_down, "notes.json");
               (OsPath.join (session_dir store_down) "clips", "cover.txt") ]
             (OsPath.join (session_dir store_down) "clips") "b.mp3"
             [ (OsPath.join (session_dir store_down) "clips", "c.mp4") ]).
    + reflexivity.
    + intros y [<- | [<- | []]]; reflexivity.
    + reflexivity.
  - apply Hnone. intros y [<- | []]. reflexivity.
Defined.

(** ** Outcome recorder and process runner: the claims *)

(** C8. Whatever the document store does with the write, a fetch whose
    child process exits with status 0 returns the located path, and a
    conversion whose child process exits with status 0 returns the output
    path: an exception of [create_document] is caught at the call site and
    dropped.  The trace of either operation holds exactly one record
    event, so the write is attempted once and not repeated. *)
Theorem C8_recorder_failure_discarded (w : World) :
  (forall req out,
     makedirs_ok w (session_dir w) = true ->
     subprocess_run w (fetch_args (environ w) (session_dir w) req)
     = Exited 0 out ->
     let chosen_file := locate (session_dir w) (listing w (session_dir w)) in
     run (yt_dlp_download w req)
     = (Returns chosen_file,
        [ EvMakedirs (session_dir w);
          EvSpawn (fetch_args (environ w) (session_dir w) req);
          EvCreateDocument "history"
            (history_record (uuid4 w) (session_dir w) chosen_file out req) ]))
  /\ (forall req out,
        path_exists w (input_path req) = true ->
        subprocess_run w (fst (convert_cmd req)) = Exited 0 out ->
        run (ffmpeg_convert w req)
        = (Returns (snd (convert_cmd req)),
           [ EvSpawn (fst (convert_cmd req));
             EvCreateDocument "conversions"
               [ ("input", VStr (input_path req));
                 ("output", VStr (snd (convert_cmd req)));
                 ("extra_args", opt_list_value (extra_args req)) ] ])).
Proof.
  split.
  - intros req out Hmk Hrun chosen_file.
    rewrite yt_dlp_download_run. cbv zeta. now rewrite Hmk, Hrun.
  - intros req out Hex Hrun.
    rewrite ffmpeg_convert_run. cbv zeta. now rewrite Hex, Hrun.
Qed.

Lemma C8_recorder_failure_discarded_witness :
  (forall c d, create_document_ok store_down c d = false)
  /\ fst (run (yt_dlp_download store_down fetch_best))
     = Returns "/tmp/downloads/2f1c9a7e-5b34-4d08-9e6a-0c3d7b8812af/clips/b.mp3"
  /\ fst (run (ffmpeg_convert store_down convert_trim))
     = Returns "a/video_conv.mp3".
Proof.
  destruct (C8_recorder_failure_discarded store_down) as [Hf Hc].
  split; [reflexivity|]. split.
  - rewrite (Hf fetch_best "done" eq_refl eq_refl). reflexivity.
  - rewrite (Hc convert_trim "done" eq_refl eq_refl). reflexivity.
Defined.

(** C9, as stated, fails: when the child exits with status 1 and has
    printed nothing, the failure does not carry the (empty) captured
    output but the description of the error. *)
Lemma C9_counterexample :
  subprocess_run silent_failure ["ffmpeg"; "-y"] = Exited 1 ""
  /\ fst (run (run_cmd silent_failure ["ffmpeg"; "-y"]))
     = Raises (HTTPException 500
                 "Command '['ffmpeg', '-y']' returned non-zero exit status 1.")
  /\ fst (run (run_cmd silent_failure ["ffmpeg"; "-y"]))
     <> Raises (HTTPException 500 (Py.slice_from (-2000) "")).
Proof.
  split; [reflexivity|]. split; [reflexivity|]. discriminate.
Qed.

(** C9, amended. When the child exits with status 0 the runner returns
    the whole combined output unchanged.  When it exits with another
    status and the combined output is not empty, the runner raises an
    error of status 500 whose detail is the last 2000 characters of that
    output (all of it when it is shorter).  When it exits with another
    status and has printed nothing, the detail is the description of the
    error instead.  In each case the process was started once. *)
Theorem C9_runner_output (w : World) (cmd : list string) (rc : Z)
  (out : string) :
  subprocess_run w cmd = Exited rc out ->
  (rc = 0%Z -> run (run_cmd w cmd) = (Returns out, [EvSpawn cmd]))
  /\ (rc <> 0%Z -> out <> "" ->
      exists detail,
        run (run_cmd w cmd) = (Raises (HTTPException 500 detail), [EvSpawn cmd])
        /\ (exists p, out = p +++ detail)
        /\ String.length detail = Nat.min 2000 (String.length out))
  /\ (rc <> 0%Z -> out = "" ->
      run (run_cmd w cmd)
      = (Raises (HTTPException 500 (CalledProcessError_str w cmd rc)),
         [EvSpawn cmd])).
Proof.
  intros Hrun. unfold run. rewrite (run_cmd_exit w cmd rc out [] Hrun).
  split; [|split].
  - intros ->. reflexivity.
  - intros Hrc Hout. apply Z.eqb_neq in Hrc. rewrite Hrc.
    apply truthy_str_iff in Hout. rewrite Hout.
    exists (Py.slice_from (-2000) out). split; [reflexivity|]. split.
    + apply slice_from_suffix.
    + change (-2000)%Z with (- Z.of_nat 2000)%Z.
      apply length_slice_from_neg. lia.
  - intros Hrc ->. apply Z.eqb_neq in Hrc. rewrite Hrc. reflexivity.
Qed.

Lemma C9_runner_output_witness :
  String.length long_log = 3018
  /\ exists detail,
       run (run_cmd noisy_failure ["ffmpeg"; "-y"])
       = (Raises (HTTPException 500 detail), [EvSpawn ["ffmpeg"; "-y"]])
       /\ (exists p, long_log = p +++ detail)
       /\ String.length detail = 2000.
Proof.
  split; [reflexivity|].
  destruct (C9_runner_output noisy_failure ["ffmpeg"; "-y"] 1 long_log eq_refl)
    as (_ & Hfail & _).
  apply Hfail.
  - discriminate.
  - apply truthy_str_iff. reflexivity.
Defined.

(** ** Further lemmas on strings and paths *)

Section MoreStringFacts.

Lemma append_assoc (a b c : string) : (a +++ b) +++ c = a +++ b +++ c.
Proof. induction a; simpl; congruence. Qed.

Lemma length_append (a b : string) :
  String.length (a +++ b) = String.length a + String.length b.
Proof. induction a; simpl; congruence. Qed.

Lemma append_inj_l (a x y : string) : a +++ x = a +++ y -> x = y.
Proof. induction a; simpl; intros H; [exact H | injection H; auto]. Qed.

Lemma take_length_append (a b : string) : Py.take (String.length a) (a +++ b) = a.
Proof. induction a; simpl; [destruct b; reflexivity | congruence]. Qed.

Lemma drop_length_append (a b : string) : Py.drop (String.length a) (a +++ b) = b.
Proof. induction a; simpl; [destruct b; reflexivity | assumption]. Qed.

Lemma prefix_append (a b : string) : String.prefix a (a +++ b) = true.
Proof.
  induction a as [|c a IH]; simpl; [destruct b; reflexivity|].
  destruct (ascii_dec c c); [exact IH | congruence].
Qed.

Lemma free_of_append (c : ascii) (a b : string) :
  free_of c (a +++ b) = free_of c a && free_of c b.
Proof.
  induction a as [|x a IH]; simpl; [reflexivity|].
  now rewrite IH, andb_assoc.
Qed.

Lemma rfind_free (c : ascii) (s : string) :
  free_of c s = true -> Py.rfind c s = (-1)%Z.
Proof.
  induction s as [|a s IH]; simpl; [reflexivity|].
  intros H. apply andb_true_iff in H as [Ha Hs].
  rewrite (IH Hs). simpl.
  destruct (Ascii.eqb a c); [discriminate | reflexivity].
Qed.

Lemma rfind_append (c : ascii) (a b : string) :
  Py.rfind c (a +++ b) =
  if (0 <=? Py.rfind c b)%Z then (Py.len a + Py.rfind c b)%Z
  else Py.rfind c a.
Proof.
  unfold Py.len. induction a as [|x a IH].
  - simpl. pose proof (rfind_range c b).
    destruct (Z.leb_spec 0 (Py.rfind c b)); lia.
  - cbn [String.append Py.rfind String.length]. rewrite IH.
    destruct (Z.leb_spec 0 (Py.rfind c b)) as [Hb|Hb]; [|reflexivity].
    destruct (Z.leb_spec 0 (Z.of_nat (String.length a) + Py.rfind c b)); lia.
Qed.

Lemma rfind_append_free (c : ascii) (a b : string) :
  free_of c b = true -> Py.rfind c (a +++ b) = Py.rfind c a.
Proof.
  intros H. rewrite rfind_append, (rfind_free c b H). reflexivity.
Qed.

Lemma extension_free_of_sep (ext : string) :
  is_extension ext -> free_of "/" ext = true.
Proof.
  intros [-> | (r & -> & _ & H)]; [reflexivity | exact H].
Qed.

Lemma format_str_free (f : media_format) :
  free_of "." (format_str f) = true /\ free_of "/" (format_str f) = true.
Proof. destruct f; split; reflexivity. Qed.

Lemma get_length_append (a b : string) (c : ascii) :
  String.get (String.length a) (a +++ String c b) = Some c.
Proof. induction a; simpl; auto. Qed.

(** The scan for a character that is not a dot succeeds when there is
    one within its range. *)
Lemma has_non_dot_found (p : string) (c : ascii) (n k : nat) (i : Z) :
  (0 <= i)%Z -> (k < n)%nat ->
  String.get (Z.to_nat i + k) p = Some c -> c <> "."%char ->
  OsPath.has_non_dot p i n = true.
Proof.
  revert i k. induction n as [|n IH]; intros i k Hi Hk Hg Hc; [lia|].
  cbn [OsPath.has_non_dot]. unfold Py.char_at.
  destruct (Z.ltb_spec i 0); [lia|].
  destruct (String.get (Z.to_nat i) p) as [a|] eqn:E; [|reflexivity].
  destruct (Ascii.eqb_spec a "."%char) as [->|]; [|reflexivity].
  destruct k as [|k].
  - rewrite Nat.add_0_r in Hg. congruence.
  - apply (IH (i + 1)%Z k); try lia; auto.
    replace (Z.to_nat (i + 1) + k)%nat with (Z.to_nat i + S k)%nat by lia.
    exact Hg.
Qed.

(** [splitext] of a name made of a stem that ends with an ordinary
    character, a dot, and a tail without dots or separators. *)
Lemma splitext_stem_dot (a : string) (c : ascii) (tail : string) :
  c <> "."%char -> c <> "/"%char ->
  free_of "." tail = true -> free_of "/" tail = true ->
  OsPath.splitext ((a +++ String c "") +++ String "." tail)
  = (a +++ String c "", String "." tail).
Proof.
  intros Hc1 Hc2 Hd Hs.
  set (stem := a +++ String c "").
  assert (Hlen : String.length stem = S (String.length a)).
  { unfold stem. rewrite length_append. simpl. lia. }
  assert (Hdot : Py.rfind "." (stem +++ String "." tail) = Py.len stem).
  { rewrite rfind_append. cbn [Py.rfind]. rewrite (rfind_free _ _ Hd).
    simpl. lia. }
  assert (Hsep : Py.rfind "/" (stem +++ String "." tail) = Py.rfind "/" a).
  { rewrite rfind_append_free by (simpl; exact Hs).
    unfold stem. apply rfind_append_free. simpl.
    destruct (Ascii.eqb_spec c "/"); [contradiction | reflexivity]. }
  pose proof (rfind_range "/" a) as Hr. unfold Py.len in *.
  unfold OsPath.splitext. rewrite Hdot, Hsep.
  destruct (Z.ltb_spec (Py.rfind "/" a) (Z.of_nat (String.length stem)));
    [|lia].
  rewrite (has_non_dot_found _ c _
             (String.length a - Z.to_nat (Py.rfind "/" a + 1))).
  - unfold Py.slice_to, Py.slice_from.
    rewrite clamp_index.
    + rewrite Nat2Z.id, take_length_append, drop_length_append. reflexivity.
    + unfold Py.len. rewrite length_append. lia.
  - lia.
  - lia.
  - replace (Z.to_nat (Py.rfind "/" a + 1)
             + (String.length a - Z.to_nat (Py.rfind "/" a + 1)))%nat
      with (String.length a) by lia.
    unfold stem. rewrite append_assoc. apply get_length_append.
  - exact Hc1.
Qed.

Lemma endswith_append (p s suf : string) :
  Py.endswith s suf = true -> Py.endswith (p +++ s) suf = true.
Proof.
  rewrite !endswith_spec. intros [q ->]. exists (p +++ q).
  now rewrite append_assoc.
Qed.

Lemma endswith_join (a f suf : string) :
  Py.endswith f suf = true -> Py.endswith (OsPath.join a f) suf = true.
Proof.
  intros H. unfold OsPath.join.
  destruct (Py.startswith f "/"); [exact H|].
  destruct (_ || _).
  - now apply endswith_append.
  - apply endswith_append. now apply (endswith_append "/").
Qed.

Lemma endswith_any_join (a f : string) :
  Py.endswith_any f media_exts = true ->
  Py.endswith_any (OsPath.join a f) media_exts = true.
Proof.
  unfold Py.endswith_any. rewrite !existsb_exists.
  intros (suf & Hin & H). exists suf. split; [exact Hin|].
  now apply endswith_join.
Qed.

End MoreStringFacts.

(** ** Fetch invocation builder: further properties *)

Lemma lower_ascii_letter (lo c : ascii) :
  In lo ["t"; "r"; "u"; "e"]%char ->
  Ascii.eqb (Py.lower_ascii c) lo = either_case lo c.
Proof.
  intros H.
  destruct c as [[] [] [] [] [] [] [] []];
    simpl in H; destruct H as [<- | [<- | [<- | [<- | []]]]]; reflexivity.
Qed.

Lemma lower_spells_true (v : option string) :
  String.eqb (Py.lower (environ_get v "false")) "true" = spells_true v.
Proof.
  destruct v as [s|]; [|reflexivity].
  cbn [environ_get spells_true].
  destruct s as [|a [|b [|c [|d [|e s]]]]];
    cbn [Py.lower String.eqb]; try reflexivity.
  4: { rewrite !lower_ascii_letter by (simpl; tauto).
       destruct (either_case "t" a), (either_case "r" b),
         (either_case "u" c), (either_case "e" d); reflexivity. }
  all: repeat match goal with
         | |- context [Ascii.eqb ?x ?y] => destruct (Ascii.eqb x y)
         end; reflexivity.
Qed.

(** X1. With [audio_only] false, a quality string that is neither empty
    nor "best" nor "worst" is passed on unchanged as the selector: the
    quality step appends "-f" and that string. *)
Theorem X1_custom_quality_verbatim (env : Environ) (out_dir : string)
  (req : DownloadRequest) (q : string) :
  audio_only req = false -> quality req = Some q ->
  q <> "" -> q <> "best" -> q <> "worst" ->
  fetch_args env out_dir req
  = base_part out_dir req ++ ["-f"; q] ++ subtitle_part req ++ env_part env
  /\ contains_pair "-f" q (fetch_args env out_dir req).
Proof.
  intros Ha Hq H0 H1 H2.
  assert (E : fetch_args env out_dir req
              = base_part out_dir req ++ ["-f"; q] ++ subtitle_part req
                  ++ env_part env).
  { rewrite fetch_args_parts. unfold quality_part. rewrite Ha, Hq.
    cbn [Py.truthy_opt environ_get Py.in_tuple existsb].
    apply truthy_str_iff in H0. apply String.eqb_neq in H1, H2.
    now rewrite H0, H1, H2. }
  split; [exact E|]. rewrite E.
  now exists (base_part out_dir req), (subtitle_part req ++ env_part env).
Qed.

Lemma X1_custom_quality_verbatim_witness :
  contains_pair "-f" "bestvideo[height<=720]+bestaudio"
    (fetch_args sponsor_env "/data/s" fetch_custom).
Proof.
  apply (X1_custom_quality_verbatim sponsor_env "/data/s" fetch_custom
           "bestvideo[height<=720]+bestaudio");
    try reflexivity; discriminate.
Defined.

(** X2. An empty quality string counts as no quality: the argument
    vector is the one built for "best". *)
Theorem X2_empty_quality_is_default (env : Environ) (out_dir : string)
  (req : DownloadRequest) :
  fetch_args env out_dir (with_quality (Some "") req)
  = fetch_args env out_dir (with_quality (Some "best") req).
Proof.
  rewrite !fetch_args_parts. unfold quality_part, with_quality; simpl.
  reflexivity.
Qed.

(** X3. The field [ffmpeg_args] of a fetch request is never used: the
    fetch operation has the same outcome and the same trace (directory,
    command, history record) whatever it holds. *)
Theorem X3_ffmpeg_args_ignored (w : World) (req : DownloadRequest)
  (a : option (list string)) :
  run (yt_dlp_download w (with_ffmpeg_args a req)) = run (yt_dlp_download w req)
  /\ fetch_args (environ w) (session_dir w) (with_ffmpeg_args a req)
     = fetch_args (environ w) (session_dir w) req.
Proof.
  split; [|reflexivity].
  rewrite !yt_dlp_download_run. reflexivity.
Qed.

(** X4. With [subtitles] true and a non-empty list of languages, the
    vector holds "--write-subs", "--sub-langs" and the languages joined
    by commas in the order given, directly followed by "--embed-subs"
    exactly when [embed_subs] is set. *)
Theorem X4_subtitle_languages (env : Environ) (out_dir : string)
  (req : DownloadRequest) (x : string) (l : list string) :
  subtitles req = true -> subtitle_langs req = Some (x :: l) ->
  fetch_args env out_dir req
  = base_part out_dir req ++ quality_part req
      ++ ["--write-subs"; "--sub-langs"; String.concat "," (x :: l)]
      ++ (if embed_subs req then ["--embed-subs"] else [])
      ++ env_part env.
Proof.
  intros Hs Hl. rewrite fetch_args_parts. unfold subtitle_part, langs_of.
  rewrite Hs, Hl. cbn [Py.list_or]. unfold Py.join.
  now rewrite <- !app_assoc.
Qed.

Lemma X4_subtitle_languages_witness :
  fetch_args plain_env "/data/s" fetch_custom
  = [ "yt-dlp"; "http://x/video"; "-o"; "/srv/out/%(id)s.%(ext)s";
      "--merge-output-format"; "mkv";
      "-f"; "bestvideo[height<=720]+bestaudio";
      "--write-subs"; "--sub-langs"; "de,fr"; "--embed-subs" ].
Proof.
  rewrite (X4_subtitle_languages plain_env "/data/s" fetch_custom "de" ["fr"]
             eq_refl eq_refl).
  reflexivity.
Defined.

(** X5. The SponsorBlock pair is appended, as the last two arguments,
    exactly when ENABLE_SPONSORBLOCK is one of the sixteen mixed-case
    spellings of "true"; for any other value, or none, the vector is the
    one built without the variable. *)
Theorem X5_sponsorblock_switch (env : Environ) (out_dir : string)
  (req : DownloadRequest) :
  fetch_args env out_dir req
  = fetch_args (with_SPONSORBLOCK None env) out_dir req
      ++ (if spells_true (env_ENABLE_SPONSORBLOCK env)
          then ["--sponsorblock-remove"; "sponsor,intro,outro"]
          else []).
Proof.
  rewrite !fetch_args_parts. unfold env_part.
  rewrite lower_spells_true. cbn [with_SPONSORBLOCK env_FFMPEG_PATH
    env_ENABLE_SPONSORBLOCK environ_get Py.lower].
  change (String.eqb (Py.lower "false") "true") with false.
  destruct (spells_true (env_ENABLE_SPONSORBLOCK env));
    rewrite <- ?app_assoc, ?app_nil_r; reflexivity.
Qed.

(** X6. A non-empty FFMPEG_PATH is handed to the tool as the value of
    "--ffmpeg-location"; an empty one is treated like an unset one. *)
Theorem X6_ffmpeg_location (env : Environ) (out_dir : string)
  (req : DownloadRequest) (p : string) :
  p <> "" ->
  contains_pair "--ffmpeg-location" p
    (fetch_args (with_FFMPEG_PATH (Some p) env) out_dir req)
  /\ fetch_args (with_FFMPEG_PATH (Some "") env) out_dir req
     = fetch_args (with_FFMPEG_PATH None env) out_dir req.
Proof.
  intros Hp. split; [|now rewrite !fetch_args_parts].
  rewrite fetch_args_parts. unfold env_part.
  cbn [with_FFMPEG_PATH env_FFMPEG_PATH env_ENABLE_SPONSORBLOCK
       Py.truthy_opt environ_get].
  apply truthy_str_iff in Hp. rewrite Hp.
  exists (base_part out_dir req ++ quality_part req ++ subtitle_part req).
  eexists. rewrite <- !app_assoc. reflexivity.
Qed.

Lemma X6_ffmpeg_location_witness :
  contains_pair "--ffmpeg-location" "/opt/ffmpeg"
    (fetch_args (with_FFMPEG_PATH (Some "/opt/ffmpeg") plain_env) "/data/s"
       fetch_best).
Proof.
  apply (X6_ffmpeg_location plain_env "/data/s" fetch_best "/opt/ffmpeg").
  discriminate.
Defined.

(** X7. The value of "-o" is the element at index 3.  A template that
    starts with a separator is used as it is, so the output leaves the
    session directory; any other template, and the default pattern used
    for an absent or empty one, is placed under the session directory. *)
Theorem X7_output_template (env : Environ) (out_dir : string)
  (req : DownloadRequest) :
  nth_error (fetch_args env out_dir req) 2 = Some "-o"
  /\ nth_error (fetch_args env out_dir req) 3 = Some (outtmpl_of out_dir req)
  /\ (forall t, filename_template req = Some t ->
                Py.startswith t "/" = true ->
                outtmpl_of out_dir req = t)
  /\ (forall t, filename_template req = Some t ->
                Py.startswith t "/" = false ->
                String.prefix out_dir (outtmpl_of out_dir req) = true)
  /\ (filename_template req = None \/ filename_template req = Some "" ->
      outtmpl_of out_dir req
      = OsPath.join out_dir "%(title)s-%(id)s.%(ext)s"
      /\ String.prefix out_dir (outtmpl_of out_dir req) = true).
Proof.
  rewrite fetch_args_parts.
  split; [reflexivity|]. split; [reflexivity|].
  assert (Hpre : forall b, Py.startswith b "/" = false ->
                           String.prefix out_dir (OsPath.join out_dir b) = true).
  { intros b Hb. unfold OsPath.join. rewrite Hb.
    destruct (_ || _); apply prefix_append. }
  split; [|split].
  - intros t Ht Habs. unfold outtmpl_of. rewrite Ht.
    destruct t as [|c t]; [discriminate|].
    cbn [Py.truthy_opt Py.truthy_str environ_get].
    unfold OsPath.join. now rewrite Habs.
  - intros t Ht Hrel. unfold outtmpl_of. rewrite Ht.
    destruct t as [|c t]; cbn [Py.truthy_opt Py.truthy_str environ_get].
    + now apply Hpre.
    + now apply Hpre.
  - intros H.
    assert (E : outtmpl_of out_dir req
                = OsPath.join out_dir "%(title)s-%(id)s.%(ext)s").
    { unfold outtmpl_of. destruct H as [-> | ->]; reflexivity. }
    split; [exact E|]. rewrite E. now apply Hpre.
Qed.

Lemma X7_output_template_witness :
  outtmpl_of "/data/s" fetch_custom = "/srv/out/%(id)s.%(ext)s"
  /\ outtmpl_of "/data/s" fetch_best = "/data/s/%(title)s-%(id)s.%(ext)s".
Proof.
  destruct (X7_output_template plain_env "/data/s" fetch_custom)
    as (_ & _ & Habs & _ & _).
  destruct (X7_output_template plain_env "/data/s" fetch_best)
    as (_ & _ & _ & _ & Hdef).
  split.
  - apply (Habs "/srv/out/%(id)s.%(ext)s"); reflexivity.
  - destruct Hdef as [E _]; [left; reflexivity|]. rewrite E. reflexivity.
Defined.

(** ** Process runner and fetch operation: further properties *)

(** X19. Whatever the child does, one call of the runner starts it once
    and adds nothing else to the trace; a child that cannot be started
    surfaces as the operating-system error, not as an HTTP error. *)
Theorem X19_runner_single_spawn (w : World) (cmd : list string)
  (t : list event) :
  snd (run_cmd w cmd t) = t ++ [EvSpawn cmd]
  /\ (subprocess_run w cmd = NotStarted ->
      fst (run_cmd w cmd t) = Raises OSError).
Proof.
  split.
  - destruct (subprocess_run w cmd) as [rc out|] eqn:E.
    + now rewrite (run_cmd_exit w cmd rc out t E).
    + now rewrite (run_cmd_not_started w cmd t E).
  - intros E. now rewrite (run_cmd_not_started w cmd t E).
Qed.

(** X8. When the fetch tool exits with a status other than 0, the fetch
    operation raises an HTTP error of status 500 and writes no history
    record: the trace holds the directory creation and the command
    only. *)
Theorem X8_fetch_tool_failure (w : World) (req : DownloadRequest) (rc : Z)
  (out : string) :
  makedirs_ok w (session_dir w) = true ->
  subprocess_run w (fetch_args (environ w) (session_dir w) req) = Exited rc out ->
  rc <> 0%Z ->
  exists detail,
    run (yt_dlp_download w req)
    = (Raises (HTTPException 500 detail),
       [ EvMakedirs (session_dir w);
         EvSpawn (fetch_args (environ w) (session_dir w) req) ])
    /\ (out <> "" -> detail = Py.slice_from (-2000) out).
Proof.
  intros Hmk Hrun Hrc. rewrite yt_dlp_download_run. cbv zeta.
  rewrite Hmk, Hrun. apply Z.eqb_neq in Hrc. rewrite Hrc.
  eexists. split; [reflexivity|].
  intros Hout. apply truthy_str_iff in Hout. now rewrite Hout.
Qed.

Lemma X8_fetch_tool_failure_witness :
  run (yt_dlp_download tool_rejects fetch_best)
  = (Raises (HTTPException 500 "ERROR: Unsupported URL"),
     [ EvMakedirs (session_dir tool_rejects);
       EvSpawn (fetch_args plain_env (session_dir tool_rejects) fetch_best) ]).
Proof.
  destruct (X8_fetch_tool_failure tool_rejects fetch_best 2
              "ERROR: Unsupported URL" eq_refl eq_refl)
    as (detail & E & Hd); [discriminate|].
  rewrite E, Hd by discriminate. reflexivity.
Defined.

(** X9. When the session directory cannot be created, the fetch
    operation raises the operating-system error at once: no process is
    started and nothing is recorded. *)
Theorem X9_workspace_failure (w : World) (req : DownloadRequest) :
  makedirs_ok w (session_dir w) = false ->
  run (yt_dlp_download w req) = (Raises OSError, [EvMakedirs (session_dir w)]).
Proof.
  intros Hmk. rewrite yt_dlp_download_run. cbv zeta. now rewrite Hmk.
Qed.

(** X10. In every world, the fetch operation writes a history record
    exactly when it returns a path; it starts at most one process and
    writes at most one record, and it always begins by creating the
    session directory. *)
Theorem X10_fetch_record_iff_success (w : World) (req : DownloadRequest) :
  let res := fst (run (yt_dlp_download w req)) in
  let tr := snd (run (yt_dlp_download w req)) in
  returned res = existsb is_record tr
  /\ length (filter is_spawn tr) <= 1
  /\ length (filter is_record tr) <= 1
  /\ hd_error tr = Some (EvMakedirs (session_dir w)).
Proof.
  rewrite yt_dlp_download_run. cbv zeta.
  destruct (makedirs_ok w (session_dir w)).
  - destruct (subprocess_run w _) as [rc out|];
      [destruct (rc =? 0)%Z|]; simpl; repeat split; lia.
  - simpl. repeat split; lia.
Qed.

(** ** Artifact locator: further properties *)

(** X11. The located path is the session directory, or it ends with one
    of the seven media extensions. *)
Theorem X11_located_path_kind (out_dir : string) (t : tree) :
  locate out_dir t = out_dir
  \/ Py.endswith_any (locate out_dir t) media_exts = true.
Proof.
  rewrite locate_find.
  destruct (find is_media _) as [[root f]|] eqn:E; [right | now left].
  apply find_some in E as [_ E]. apply endswith_any_join. exact E.
Qed.

(** X12. A media file directly in the session directory is preferred to
    any file in a sub-directory: when the directory itself holds one, the
    first such file is returned, whatever the sub-directories hold. *)
Theorem X12_top_level_first (out_dir : string) (files : list string)
  (dirs : list (string * tree)) (f : string) :
  find (fun f => Py.endswith_any f media_exts) files = Some f ->
  locate out_dir (Dir files dirs) = OsPath.join out_dir f.
Proof.
  intros H. rewrite locate_find.
  cbn [walk walked_files flat_map fst snd].
  rewrite find_app_first, find_map_pair, H. reflexivity.
Qed.

Lemma X12_top_level_first_witness :
  locate "/data/s"
    (Dir ["readme.txt"; "z.webm"] [("a", Dir ["a.mp4"] [])])
  = "/data/s/z.webm".
Proof.
  rewrite (X12_top_level_first "/data/s" ["readme.txt"; "z.webm"]
             [("a", Dir ["a.mp4"] [])] "z.webm" eq_refl).
  reflexivity.
Defined.

Lemma X9_workspace_failure_witness :
  run (yt_dlp_download readonly_root fetch_best)
  = (Raises OSError,
     [EvMakedirs "/tmp/downloads/7a0e4c55-91d2-4b6f-8c3a-5e2f1d0b9a64"]).
Proof.
  apply (X9_workspace_failure readonly_root fetch_best). reflexivity.
Defined.

(** ** Convert operation: further properties *)

Lemma take_append_le (n : nat) (a b : string) :
  n <= String.length a -> Py.take n (a +++ b) = Py.take n a.
Proof.
  revert a; induction n as [|n IH]; intros a H.
  - destruct a, b; reflexivity.
  - destruct a as [|c a]; simpl in H; [lia|]. simpl. f_equal.
    apply IH. lia.
Qed.

Lemma length_take_le (n : nat) (s : string) :
  String.length (Py.take n s) <= n.
Proof.
  revert s; induction n as [|n IH]; intros [|c s]; simpl; try lia.
  specialize (IH s). lia.
Qed.

Lemma out_path_eq (req : ConvertRequest) :
  snd (convert_cmd req)
  = fst (OsPath.splitext (input_path req)) +++ "_conv."
      +++ format_str (output_format req).
Proof. now rewrite convert_cmd_shape. Qed.

Lemma basename_split (p : string) :
  p = Py.take (Z.to_nat (Py.rfind "/" p + 1)) p +++ basename p.
Proof.
  unfold basename, Py.slice_from.
  pose proof (rfind_range "/" p).
  rewrite clamp_index by lia. symmetry. apply take_drop.
Qed.

(** X13. The output path of a conversion is never the input path, so
    the overwriting transcoder is never pointed at its own input. *)
Theorem X13_output_differs_from_input (req : ConvertRequest) :
  snd (convert_cmd req) <> input_path req.
Proof.
  rewrite out_path_eq. intros E.
  pose proof (eq_trans E (eq_sym (splitext_append (input_path req)))) as E'.
  apply append_inj_l in E'.
  destruct (splitext_extension (input_path req)) as [H | (r & H & _)];
    rewrite H in E'; discriminate.
Qed.

(** X14. The output path splits into the input's base followed by
    "_conv" and the extension of the requested format: the transcoder is
    always given a name that carries the output format. *)
Theorem X14_output_extension (req : ConvertRequest) :
  OsPath.splitext (snd (convert_cmd req))
  = (fst (OsPath.splitext (input_path req)) +++ "_conv",
     "." +++ format_str (output_format req)).
Proof.
  rewrite out_path_eq.
  set (base := fst (OsPath.splitext (input_path req))).
  destruct (format_str_free (output_format req)) as [Hd Hs].
  pose proof (splitext_stem_dot (base +++ "_con") "v"
                (format_str (output_format req))) as H.
  rewrite !append_assoc in H. simpl in H. simpl.
  apply H; auto; discriminate.
Qed.

(** X15. The output of a conversion lies in the directory of the input:
    both paths are the same leading part followed by their file names. *)
Theorem X15_output_beside_input (req : ConvertRequest) :
  exists head,
    input_path req = head +++ basename (input_path req)
    /\ snd (convert_cmd req) = head +++ basename (snd (convert_cmd req)).
Proof.
  rewrite out_path_eq.
  set (base := fst (OsPath.splitext (input_path req))).
  set (ext := snd (OsPath.splitext (input_path req))).
  set (out := base +++ "_conv." +++ format_str (output_format req)).
  assert (Hin : input_path req = base +++ ext)
    by (symmetry; apply splitext_append).
  assert (Hri : Py.rfind "/" (input_path req) = Py.rfind "/" base).
  { rewrite Hin. apply rfind_append_free, extension_free_of_sep.
    apply splitext_extension. }
  assert (Hro : Py.rfind "/" out = Py.rfind "/" base).
  { unfold out. apply rfind_append_free. rewrite free_of_append.
    now rewrite (proj2 (format_str_free (output_format req))). }
  pose proof (rfind_range "/" base) as Hr. unfold Py.len in Hr.
  exists (Py.take (Z.to_nat (Py.rfind "/" base + 1)) base).
  split.
  - rewrite (basename_split (input_path req)) at 1. rewrite Hri.
    f_equal. rewrite Hin. apply take_append_le. lia.
  - rewrite (basename_split out) at 1. rewrite Hro.
    f_equal. unfold out. apply take_append_le. lia.
Qed.

(** X16. When the file name of the input holds no dot, nothing is
    stripped: the output path is the whole input path followed by
    "_conv." and the format. *)
Theorem X16_no_extension_input (req : ConvertRequest) :
  free_of "." (basename (input_path req)) = true ->
  snd (convert_cmd req)
  = input_path req +++ "_conv." +++ format_str (output_format req).
Proof.
  intros Hf. rewrite out_path_eq. f_equal.
  set (p := input_path req) in *.
  pose proof (rfind_range "/" p) as Hr. unfold Py.len in Hr.
  assert (Hdot : (Py.rfind "." p <= Py.rfind "/" p)%Z).
  { rewrite (basename_split p) at 1. rewrite (rfind_append_free _ _ _ Hf).
    pose proof (rfind_range "."
                  (Py.take (Z.to_nat (Py.rfind "/" p + 1)) p)) as Ht.
    unfold Py.len in Ht.
    pose proof (length_take_le (Z.to_nat (Py.rfind "/" p + 1)) p).
    lia. }
  unfold OsPath.splitext. fold p.
  destruct (Z.ltb_spec (Py.rfind "/" p) (Py.rfind "." p)); [lia|].
  reflexivity.
Qed.

Lemma X16_no_extension_input_witness :
  snd (convert_cmd convert_plain) = "media/clip_conv.wav".
Proof.
  rewrite (X16_no_extension_input convert_plain eq_refl). reflexivity.
Defined.

(** X17. In every world, the convert operation writes a conversions
    record exactly when it returns the output path; it starts at most one
    process, and when the transcoder exits with a status other than 0 it
    raises an HTTP error of status 500 after that single start. *)
Theorem X17_convert_record_iff_success (w : World) (req : ConvertRequest) :
  let res := fst (run (ffmpeg_convert w req)) in
  let tr := snd (run (ffmpeg_convert w req)) in
  returned res = existsb is_record tr
  /\ length (filter is_spawn tr) <= 1
  /\ length (filter is_record tr) <= 1
  /\ (forall rc out,
        path_exists w (input_path req) = true ->
        subprocess_run w (fst (convert_cmd req)) = Exited rc out ->
        rc <> 0%Z ->
        tr = [EvSpawn (fst (convert_cmd req))]
        /\ exists detail, res = Raises (HTTPException 500 detail)).
Proof.
  rewrite ffmpeg_convert_run. cbv zeta.
  split; [|split; [|split]].
  - destruct (path_exists w _); [|reflexivity].
    destruct (subprocess_run w _) as [rc out|];
      [destruct (rc =? 0)%Z|]; reflexivity.
  - destruct (path_exists w _); [|simpl; lia].
    destruct (subprocess_run w _) as [rc out|];
      [destruct (rc =? 0)%Z|]; simpl; lia.
  - destruct (path_exists w _); [|simpl; lia].
    destruct (subprocess_run w _) as [rc out|];
      [destruct (rc =? 0)%Z|]; simpl; lia.
  - intros rc out Hex Hrun Hrc. rewrite Hex, Hrun.
    apply Z.eqb_neq in Hrc. rewrite Hrc. simpl.
    split; [reflexivity|]. eexists; reflexivity.
Qed.

Lemma X17_convert_record_iff_success_witness :
  snd (run (ffmpeg_convert tool_rejects convert_trim))
  = [EvSpawn (fst (convert_cmd convert_trim))]
  /\ exists detail,
       fst (run (ffmpeg_convert tool_rejects convert_trim))
       = Raises (HTTPException 500 detail).
Proof.
  destruct (X17_convert_record_iff_success tool_rejects convert_trim)
    as (_ & _ & _ & H).
  apply (H 2%Z "ERROR: Unsupported URL"); [reflexivity | reflexivity |].
  discriminate.
Defined.

(** X18. An empty start, an empty end and an empty list of extra
    arguments are treated like absent ones: the command and the output
    path are the same. *)
Theorem X18_empty_options_ignored (req : ConvertRequest) :
  convert_cmd (with_options (Some "") (Some "") (Some []) req)
  = convert_cmd (with_options None None None req).
Proof. reflexivity. Qed.

Lemma X19_runner_single_spawn_witness :
  run (run_cmd tool_missing ["ffprobe"; "-version"])
  = (Raises OSError, [EvSpawn ["ffprobe"; "-version"]]).
Proof.
  destruct (X19_runner_single_spawn tool_missing ["ffprobe"; "-version"] [])
    as [Ht Hr].
  rewrite (surjective_pairing (run (run_cmd tool_missing _))).
  unfold run. rewrite Ht, (Hr eq_refl). reflexivity.
Defined.

(** ** Probe, file and endpoint wrappers *)

Lemma basename_free_of_sep (p : string) : free_of "/" (basename p) = true.
Proof.
  unfold basename, Py.slice_from.
  pose proof (rfind_range "/" p).
  rewrite clamp_index by lia.
  apply rfind_below_free. lia.
Qed.

(** X20. Probing or fetching a path that does not exist raises the
    not-found error (status 404, "File not found") and leaves the trace
    untouched: the inspection tool is not started. *)
Theorem X20_missing_path_not_found (w : World) (path : string)
  (t : list event) :
  path_exists w path = false ->
  probe_media w path t = (Raises (HTTPException 404 "File not found"), t)
  /\ get_file w path t = (Raises (HTTPException 404 "File not found"), t).
Proof.
  intros H. unfold probe_media, get_file. now rewrite H.
Qed.

Lemma X20_missing_path_not_found_witness :
  probe_media input_missing "a/video.mp4" []
  = (Raises (HTTPException 404 "File not found"), [])
  /\ get_file input_missing "a/video.mp4" []
     = (Raises (HTTPException 404 "File not found"), []).
Proof.
  apply (X20_missing_path_not_found input_missing "a/video.mp4" []).
  reflexivity.
Defined.

(** X21. Probing an existing path starts exactly one process, "ffprobe
    -hide_banner -i" with the path as its own last argument, and writes
    no record; when that process exits with status 0 the answer is its
    whole output under "raw", and when it exits with another status the
    answer is an HTTP error of status 500. *)
Theorem X21_probe_existing (w : World) (path : string) :
  path_exists w path = true ->
  let cmd := ["ffprobe"; "-hide_banner"; "-i"; path] in
  snd (run (probe_media w path)) = [EvSpawn cmd]
  /\ (forall out, subprocess_run w cmd = Exited 0 out ->
                  fst (run (probe_media w path)) = Returns [("raw", VStr out)])
  /\ (forall rc out, subprocess_run w cmd = Exited rc out -> rc <> 0%Z ->
                     exists detail,
                       fst (run (probe_media w path))
                       = Raises (HTTPException 500 detail)).
Proof.
  intros Hex cmd. unfold run, probe_media. rewrite Hex. cbn [negb].
  fold cmd. unfold bind.
  destruct (subprocess_run w cmd) as [rc out|] eqn:E.
  - rewrite (run_cmd_exit w cmd rc out [] E).
    split; [|split].
    + destruct (rc =? 0)%Z; reflexivity.
    + intros out' [= -> ->]. reflexivity.
    + intros rc' out' [= -> ->] Hrc. apply Z.eqb_neq in Hrc. rewrite Hrc.
      eexists; reflexivity.
  - rewrite (run_cmd_not_started w cmd [] E).
    split; [reflexivity|]. split; intros; discriminate.
Qed.

Lemma X21_probe_existing_witness :
  run (probe_media store_down "a/video.mp4")
  = (Returns [("raw", VStr "done")],
     [EvSpawn ["ffprobe"; "-hide_banner"; "-i"; "a/video.mp4"]]).
Proof.
  destruct (X21_probe_existing store_down "a/video.mp4" eq_refl)
    as (Ht & Hok & _).
  rewrite (surjective_pairing (run (probe_media store_down "a/video.mp4"))).
  rewrite Ht, (Hok "done" eq_refl). reflexivity.
Defined.

(** X22. For an existing path the file endpoint answers with that path
    and, as download name, its last component: the name holds no
    separator, the path is some leading part followed by the name, and
    nothing is started or recorded. *)
Theorem X22_file_download_name (w : World) (path : string) (t : list event) :
  path_exists w path = true ->
  exists head,
    get_file w path t
    = (Returns {| response_path := path;
                  response_filename := basename path |}, t)
    /\ path = head +++ basename path
    /\ free_of "/" (basename path) = true.
Proof.
  intros Hex. exists (Py.take (Z.to_nat (Py.rfind "/" path + 1)) path).
  split; [|split].
  - unfold get_file. now rewrite Hex.
  - apply basename_split.
  - apply basename_free_of_sep.
Qed.

Lemma X22_file_download_name_witness :
  exists head,
    get_file store_down "/tmp/downloads/s/clips/b.mp3" []
    = (Returns {| response_path := "/tmp/downloads/s/clips/b.mp3";
                  response_filename := "b.mp3" |}, [])
    /\ "/tmp/downloads/s/clips/b.mp3" = head +++ "b.mp3"
    /\ free_of "/" "b.mp3" = true.
Proof.
  exact (X22_file_download_name store_down "/tmp/downloads/s/clips/b.mp3" []
           eq_refl).
Defined.

(** X27. The two POST endpoints add nothing to their operation: the
    same trace, every exception passed through unchanged, and on success
    the path under the single key "path" (fetch) or "output" (convert). *)
Theorem X27_endpoints_wrap (w : World) :
  (forall req,
     run (download_media w req)
     = (match fst (run (yt_dlp_download w req)) with
        | Returns p => Returns [("path", VStr p)]
        | Raises e => Raises e
        end, snd (run (yt_dlp_download w req))))
  /\ (forall req,
        run (convert_media w req)
        = (match fst (run (ffmpeg_convert w req)) with
           | Returns p => Returns [("output", VStr p)]
           | Raises e => Raises e
           end, snd (run (ffmpeg_convert w req)))).
Proof.
  split; intros req; unfold run, download_media, convert_media, bind.
  - destruct (yt_dlp_download w req []) as [[p|e] tr]; reflexivity.
  - destruct (ffmpeg_convert w req []) as [[p|e] tr]; reflexivity.
Qed.

(** ** History and status endpoints *)

Lemma dict_get_set_same (k : string) (v : stored) (d : stored_doc) :
  dict_get k (dict_set k v d) = Some v.
Proof.
  induction d as [|[k' v'] d IH]; cbn [dict_set dict_get].
  - now rewrite String.eqb_refl.
  - destruct (String.eqb k' k) eqn:E; cbn [dict_get].
    + now rewrite String.eqb_refl.
    + now rewrite E.
Qed.

Lemma dict_get_set_other (k k0 : string) (v : stored) (d : stored_doc) :
  k0 <> k -> dict_get k0 (dict_set k v d) = dict_get k0 d.
Proof.
  intros Hk. induction d as [|[k' v'] d IH]; cbn [dict_set dict_get].
  - apply not_eq_sym in Hk. apply String.eqb_neq in Hk. now rewrite Hk.
  - destruct (String.eqb_spec k' k) as [->|Hn]; cbn [dict_get].
    + apply not_eq_sym in Hk. apply String.eqb_neq in Hk. now rewrite Hk.
    + destruct (String.eqb k' k0); [reflexivity | exact IH].
Qed.

Lemma length_dict_set (k : string) (v : stored) (d : stored_doc) :
  length (dict_set k v d)
  = match dict_get k d with
    | Some _ => length d
    | None => S (length d)
    end.
Proof.
  induction d as [|[k' v'] d IH]; cbn [dict_set dict_get]; [reflexivity|].
  destruct (String.eqb k' k); cbn [length]; [reflexivity|].
  rewrite IH. destruct (dict_get k d); reflexivity.
Qed.

(** X23. The history endpoint never raises and has no effect on the
    trace; when the store cannot be read it answers with an empty list
    of items. *)
Theorem X23_history_never_raises (st : Store) (limit : Z) (t : list event) :
  (exists items, history st limit t = (Returns items, t))
  /\ (get_documents_result st "history" limit = None ->
      history st limit t = (Returns [], t)).
Proof.
  unfold history, try_except, get_documents, bind, ret, raise.
  destruct (get_documents_result st "history" limit) as [docs|].
  - split; [eexists; reflexivity | discriminate].
  - split; [eexists; reflexivity | reflexivity].
Qed.

Lemma X23_history_never_raises_witness :
  history unreadable_store 20 [] = (Returns [], []).
Proof.
  destruct (X23_history_never_raises unreadable_store 20 []) as [_ H].
  apply H. reflexivity.
Defined.

(** X24. When the store answers, the history endpoint returns as many
    items as it was given, in the same order.  In each item the key
    "_id" holds a string: the text of the identifier it held, or "None"
    when it held none (the key is then added, so the item grows by one
    field); every other key keeps its value. *)
Theorem X24_history_stringifies_ids (st : Store) (limit : Z)
  (docs : list stored_doc) :
  get_documents_result st "history" limit = Some docs ->
  exists items,
    run (history st limit) = (Returns items, [])
    /\ length items = length docs
    /\ (forall i d, nth_error docs i = Some d ->
          exists d',
            nth_error items i = Some d'
            /\ dict_get "_id" d'
               = Some (SField (VStr (py_str st (dict_get "_id" d))))
            /\ (forall hex, dict_get "_id" d = Some (SObjectId hex) ->
                            dict_get "_id" d' = Some (SField (VStr hex)))
            /\ (dict_get "_id" d = None ->
                dict_get "_id" d' = Some (SField (VStr "None"))
                /\ length d' = S (length d))
            /\ (forall k, k <> "_id" -> dict_get k d' = dict_get k d)).
Proof.
  intros Hdocs.
  exists (map (fun d => dict_set "_id"
                          (SField (VStr (py_str st (dict_get "_id" d)))) d)
            docs).
  split; [|split].
  - unfold run, history, try_except, get_documents, bind, ret.
    now rewrite Hdocs.
  - apply length_map.
  - intros i d Hd. eexists. split.
    + rewrite nth_error_map, Hd. reflexivity.
    + split; [apply dict_get_set_same|]. split; [|split].
      * intros hex Hh. rewrite dict_get_set_same, Hh. reflexivity.
      * intros Hn. rewrite dict_get_set_same, length_dict_set, Hn.
        split; reflexivity.
      * intros k Hk. now apply dict_get_set_other.
Qed.

Lemma X24_history_stringifies_ids_witness :
  run (history history_store 20)
  = (Returns
       [ [ ("_id", SField (VStr "65f1c0ffee0ddba11ad0beef"));
           ("url", SField (VStr "http://x/video")) ];
         [ ("url", SField (VStr "http://y/audio"));
           ("_id", SField (VStr "None")) ] ], []).
Proof.
  destruct (X24_history_stringifies_ids history_store 20 _ eq_refl)
    as (items & E & _).
  rewrite E. injection E as <-. reflexivity.
Defined.

Lemma length_slice_to_le (n : nat) (s : string) :
  String.length (Py.slice_to (Z.of_nat n) s) <= n.
Proof.
  unfold Py.slice_to, Py.clamp.
  destruct (Z.ltb_spec (Z.of_nat n) 0); [lia|].
  pose proof (length_take_le (Z.to_nat (Z.min (Z.of_nat n) (Py.len s))) s).
  lia.
Qed.

Lemma slice_to_prefix (i : Z) (s : string) :
  String.prefix (Py.slice_to i s) s = true.
Proof.
  unfold Py.slice_to.
  pose proof (prefix_append (Py.take (Z.to_nat (Py.clamp i s)) s)
                (Py.drop (Z.to_nat (Py.clamp i s)) s)) as H.
  now rewrite take_drop in H.
Qed.

(** X25. In the status report the fields "database_url" and
    "database_name" say only whether the variables DATABASE_URL and
    DATABASE_NAME are set to a non-empty value: whatever the database
    handle is, and whatever name it has, they read "Set" or "Not Set";
    the field "backend" always reads "Running". *)
Theorem X25_status_env_fields (st : Store) :
  st_database_url (test_database st)
  = Some (if Py.truthy_opt (env_DATABASE_URL st) then "✅ Set"
          else "❌ Not Set")
  /\ st_database_name (test_database st)
     = Some (if Py.truthy_opt (env_DATABASE_NAME st) then "✅ Set"
             else "❌ Not Set")
  /\ st_backend (test_database st) = "✅ Running".
Proof.
  unfold test_database.
  destruct (db st) as [d|]; [destruct (list_collection_names d)|];
    cbn [st_database_url st_database_name st_backend];
    repeat split; reflexivity.
Qed.

(** X26. The status report lists at most ten collections, the first ten
    the database names, and reports the connection as working.  When
    listing them fails, the list is empty, the connection still reads
    "Connected", and the field "database" carries at most the first 50
    characters of the error text.  Without a database handle the list is
    empty and the connection reads "Not Connected". *)
Theorem X26_status_collections (st : Store) :
  length (st_collections (test_database st)) <= 10
  /\ (forall d cs,
        db st = Some d -> list_collection_names d = inr cs ->
        st_collections (test_database st) = firstn 10 cs
        /\ st_database (test_database st) = "✅ Connected & Working"
        /\ st_connection_status (test_database st) = "Connected")
  /\ (forall d e,
        db st = Some d -> list_collection_names d = inl e ->
        st_collections (test_database st) = []
        /\ st_connection_status (test_database st) = "Connected"
        /\ exists excerpt,
             st_database (test_database st)
             = "⚠️  Connected but Error: " +++ excerpt
             /\ String.length excerpt <= 50
             /\ String.prefix excerpt e = true)
  /\ (db st = None ->
      st_collections (test_database st) = []
      /\ st_connection_status (test_database st) = "Not Connected").
Proof.
  unfold test_database.
  destruct (db st) as [d|];
    [destruct (list_collection_names d) as [e|cs] eqn:E|];
    cbn [st_collections st_database st_connection_status].
  - split; [simpl; lia|]. split; [intros d' cs' [= <-] H; congruence|].
    split; [|discriminate].
    intros d' e' [= <-] H. assert (e' = e) as -> by congruence.
    split; [reflexivity|]. split; [reflexivity|].
    exists (Py.slice_to 50 e). split; [reflexivity|]. split.
    + apply (length_slice_to_le 50).
    + apply slice_to_prefix.
  - split; [apply firstn_le_length|]. split.
    + intros d' cs' [= <-] H. assert (cs' = cs) as -> by congruence.
      repeat split.
    + split; [intros d' e' [= <-] H; congruence | discriminate].
  - split; [simpl; lia|]. split; [discriminate|].
    split; [discriminate|]. intros _. split; reflexivity.
Qed.

Lemma X26_status_collections_witness :
  st_collections (test_database history_store)
  = ["c01"; "c02"; "c03"; "c04"; "c05"; "c06"; "c07"; "c08"; "c09"; "c10"]
  /\ st_collections (test_database unreadable_store) = []
  /\ st_database (test_database unreadable_store)
     = "⚠️  Connected but Error: ServerSelectionTimeoutError: localhost:27017: [Err".
Proof.
  destruct (X26_status_collections history_store) as (_ & Hok & _ & _).
  destruct (X26_status_collections unreadable_store) as (_ & _ & Herr & _).
  destruct (Hok _ _ eq_refl eq_refl) as (E & _).
  destruct (Herr _ _ eq_refl eq_refl) as (E' & _ & _).
  split; [rewrite E; reflexivity|]. split; [exact E' | reflexivity].
Defined.
